(** * folly/experimental/AutoTimer.h

    A shallow embedding of [folly::AutoTimer], [folly::makeAutoTimer] and
    [folly::GoogleLogger], together with the properties of the scoped timer
    that the specification states.

    Conventions.
    - [double] is IEEE binary64: the primitive [float] of Rocq.  The test
      [duration >= minTimeToLog_] is [minTimeToLog_ <=? duration].
    - The two template parameters [Logger] and [Clock] are type classes.
      Everything outside the timer object (the clock, the log sinks) lives in
      an environment of type [W]; a call runs in the monad [M] of state and
      C++ control flow (normal return, a thrown exception, [std::terminate]).
    - A ghost trace records every entry into the canonical report operation
      [logImpl] and every invocation of the logger by the timer.  Capabilities
      act on the environment only: they cannot touch the trace. *)

From Stdlib Require Import ZArith String List Bool Floats Lia.
Import ListNotations.

Set Implicit Arguments.

Declare Scope cpp_scope.
Delimit Scope cpp_scope with cpp.

(** ** Control flow and state *)

(** How a C++ call ends: it returns a value, an exception leaves it, or
    [std::terminate] has been called. *)
Inductive outcome (E A : Type) : Type :=
| Returned (a : A)
| Thrown (e : E)
| Terminated.

Arguments Returned {E A} a.
Arguments Thrown {E A} e.
Arguments Terminated {E A}.

(** A computation over a state [S]; the state survives a throw. *)
Definition M (E S A : Type) : Type := S -> outcome E A * S.

Definition ret {E S A} (a : A) : M E S A := fun s => (Returned a, s).

Definition bind {E S A B} (m : M E S A) (k : A -> M E S B) : M E S B :=
  fun s =>
    match m s with
    | (Returned a, s') => k a s'
    | (Thrown e, s') => (Thrown e, s')
    | (Terminated, s') => (Terminated, s')
    end.

Notation "x <- m ;; k" := (bind m (fun x => k))
  (at level 61, m at next level, right associativity) : cpp_scope.
Notation "m ;; k" := (bind m (fun _ => k))
  (at level 61, right associativity) : cpp_scope.

(** A function that is [noexcept]: an exception that would leave it calls
    [std::terminate] instead. *)
Definition noexcept {E S A} (m : M E S A) : M E S A :=
  fun s =>
    match m s with
    | (Thrown _, s') => (Terminated, s')
    | r => r
    end.

(** ** The ghost trace *)

Inductive Event : Type :=
| EvReport (msg : string) (duration : float)   (* logImpl entered *)
| EvLogger (msg : string) (sec : float).       (* logger_(msg, sec) called *)

Fixpoint reports (tr : list Event) : list (string * float) :=
  match tr with
  | [] => []
  | EvReport m d :: tr' => (m, d) :: reports tr'
  | EvLogger _ _ :: tr' => reports tr'
  end.

Fixpoint logger_calls (tr : list Event) : list (string * float) :=
  match tr with
  | [] => []
  | EvReport _ _ :: tr' => logger_calls tr'
  | EvLogger m d :: tr' => (m, d) :: logger_calls tr'
  end.

Record World (W : Type) : Type := mkWorld { env : W; trace : list Event }.

(** ** The capabilities: template parameters [Clock] and [Logger] *)

(** [Clock] models Clock from std::chrono: the static [Clock::now()], and
    [seconds_between a b], which is
    [duration_cast<duration<double>>(a - b).count()]. *)
Class Clock (E W TP : Type) : Type := {
  Clock_now : M E W TP;
  seconds_between : TP -> TP -> float
}.

(** [Logger]: [Logger()], the move constructor (the new object and what is
    left in the source), [operator()(StringPiece, double)], which may change
    the logger and the environment, and whether [~Logger()] is non-throwing
    (as every destructor is unless declared [noexcept(false)]). *)
Class Logger (E W L : Type) : Type := {
  Logger_default : L;
  Logger_move : L -> L * L;
  Logger_call : string -> float -> M E (L * W) unit;
  Logger_dtor_noexcept : bool
}.

(** ** class AutoTimer *)

Record AutoTimer (TP L : Type) : Type := mkAutoTimer {
  destructionMessage_ : string;   (* const std::string *)
  start_ : TP;                    (* std::chrono::time_point<Clock> *)
  minTimeToLog_ : float;          (* double *)
  logger_ : L                     (* Logger *)
}.

Section AutoTimer.
Context {E W TP L : Type} {clock : Clock E W TP} {logger : Logger E W L}.

Local Open Scope cpp_scope.

(** The state a member function runs in: the object and the world. *)
Definition Self : Type := (AutoTimer TP L * World W)%type.

Definition in_env {A} (m : M E W A) : M E (World W) A :=
  fun w =>
    let (r, e') := m (env w) in
    (r, {| env := e'; trace := trace w |}).

Definition global {A} (m : M E (World W) A) : M E Self A :=
  fun s =>
    let (r, w') := m (snd s) in
    (r, (fst s, w')).

Definition this : M E Self (AutoTimer TP L) :=
  fun s => (Returned (fst s), s).

Definition emit (ev : Event) : M E Self unit :=
  fun s =>
    (Returned tt,
     (fst s, {| env := env (snd s); trace := trace (snd s) ++ [ev] |})).

Definition set_start_ (t : TP) (a : AutoTimer TP L) : AutoTimer TP L :=
  {| destructionMessage_ := destructionMessage_ a;
     start_ := t;
     minTimeToLog_ := minTimeToLog_ a;
     logger_ := logger_ a |}.

Definition set_logger_ (l : L) (a : AutoTimer TP L) : AutoTimer TP L :=
  {| destructionMessage_ := destructionMessage_ a;
     start_ := start_ a;
     minTimeToLog_ := minTimeToLog_ a;
     logger_ := l |}.

Definition assign_start_ (t : TP) : M E Self unit :=
  fun s => (Returned tt, (set_start_ t (fst s), snd s)).

(** [logger_(msg, duration)]: the call is recorded, then [operator()] runs
    on the member [logger_] and the environment. *)
Definition invoke_logger (msg : string) (duration : float) : M E Self unit :=
  fun s =>
    let (r, lw) := Logger_call msg duration (logger_ (fst s), env (snd s)) in
    (r, (set_logger_ (fst lw) (fst s),
         {| env := snd lw;
            trace := trace (snd s) ++ [EvLogger msg duration] |})).

(** [Clock::now()] called from a member function. *)
Definition now : M E Self TP := global (in_env Clock_now).

(** Default arguments of the constructor and of [makeAutoTimer]. *)
Definition default_msg : string := EmptyString.

(** [explicit AutoTimer(std::string&& msg, double minTimetoLog,
    Logger&& logger)].  Members are initialised in declaration order:
    [destructionMessage_], then [start_ = Clock::now()], then
    [minTimeToLog_], then [logger_(std::move(logger))]. *)
Definition AutoTimer_ctor (msg : string) (minTimetoLog : float) (lg : L)
  : M E (World W) (AutoTimer TP L) :=
  t0 <- in_env Clock_now ;;
  ret {| destructionMessage_ := msg;
         start_ := t0;
         minTimeToLog_ := minTimetoLog;
         logger_ := fst (Logger_move lg) |}.

(** [AutoTimer(AutoTimer&&) = default]: member-wise.  Moving from the
    [const std::string] member copies it, [start_] and [minTimeToLog_] are
    trivially copied, [logger_] is moved.  The result is the new object
    and the source as the move leaves it. *)
Definition AutoTimer_move (src : AutoTimer TP L)
  : AutoTimer TP L * AutoTimer TP L :=
  ({| destructionMessage_ := destructionMessage_ src;
      start_ := start_ src;
      minTimeToLog_ := minTimeToLog_ src;
      logger_ := fst (Logger_move (logger_ src)) |},
   set_logger_ (snd (Logger_move (logger_ src))) src).

(** [double logImpl(std::chrono::time_point<Clock> now, StringPiece msg)]. *)
Definition logImpl (now_ : TP) (msg : string) : M E Self float :=
  t <- this ;;
  let duration := seconds_between now_ (start_ t) in
  emit (EvReport msg duration) ;;
  (if (minTimeToLog_ t <=? duration)%float
   then invoke_logger msg duration
   else ret tt) ;;
  fresh <- now ;;
  assign_start_ fresh ;;
  ret duration.

(** [double log(StringPiece msg)], whose default argument is the empty
    string [default_msg]. *)
Definition log (msg : string) : M E Self float :=
  now_ <- now ;;
  logImpl now_ msg.

(** [template <typename... Args> double log(Args&&... args)]:
    [build] is the evaluation of [to<std::string>(args...)]. *)
Definition log_args (build : M E W string) : M E Self float :=
  now_ <- now ;;
  msg <- global (in_env build) ;;
  logImpl now_ msg.

(** [template <typename... Args> double logFormat(Args&&... args)]:
    [build] is the evaluation of [format(args...).str()]. *)
Definition logFormat (build : M E W string) : M E Self float :=
  now_ <- now ;;
  msg <- global (in_env build) ;;
  logImpl now_ msg.

(** The body of [~AutoTimer()]: [log(destructionMessage_)].  Overload
    resolution picks the variadic [log] for a [std::string] argument, and
    [to<std::string>] of a string is that string: see [log_args_ret]. *)
Definition dtor_body : M E Self unit :=
  t <- this ;;
  log (destructionMessage_ t) ;;
  ret tt.

(** [~AutoTimer()] has no exception specification of its own, so it is
    [noexcept] exactly when the destructors of its members are. *)
Definition AutoTimer_dtor : M E Self unit :=
  if Logger_dtor_noexcept then noexcept dtor_body else dtor_body.

(** [makeAutoTimer(msg, minTimeToLog, logger)]: the returned prvalue
    initialises the caller's object (copy elision). *)
Definition makeAutoTimer (msg : string) (minTimeToLog : float) (lg : L)
  : M E (World W) (AutoTimer TP L) :=
  AutoTimer_ctor msg minTimeToLog lg.

(** *** Lifetime of a local timer

    Leaving the scope of a local [AutoTimer] with the outcome [pending]
    runs its destructor: after normal completion or a [return], and during
    stack unwinding, where a second exception calls [std::terminate].
    After [std::terminate] nothing runs. *)
Definition scope_exit {A} (pending : outcome E A) (s : Self)
  : outcome E A * World W :=
  match pending with
  | Returned a =>
      match AutoTimer_dtor s with
      | (Returned _, s') => (Returned a, snd s')
      | (Thrown e, s') => (Thrown e, snd s')
      | (Terminated, s') => (Terminated, snd s')
      end
  | Thrown e =>
      match AutoTimer_dtor s with
      | (Returned _, s') => (Thrown e, snd s')
      | (_, s') => (Terminated, snd s')
      end
  | Terminated => (Terminated, snd s)
  end.

(** [{ AutoTimer t(msg, minTimetoLog, logger); body }]. *)
Definition scoped {A} (msg : string) (minTimetoLog : float) (lg : L)
    (body : M E Self A) : M E (World W) A :=
  fun w =>
    match AutoTimer_ctor msg minTimetoLog lg w with
    | (Returned t, w1) => let (r, s) := body (t, w1) in scope_exit r s
    | (Thrown e, w1) => (Thrown e, w1)
    | (Terminated, w1) => (Terminated, w1)
    end.

(** [AutoTimer b(std::move(a)); }] for a live local [a]: the scope ends
    right after the move; [b] is destroyed first, then [a]. *)
Definition move_then_exit (a : AutoTimer TP L) : M E (World W) unit :=
  fun w =>
    let (r, w1) := scope_exit (Returned tt) (fst (AutoTimer_move a), w) in
    scope_exit r (snd (AutoTimer_move a), w1).

(** *** Vocabulary of the properties *)

(** What the threshold test of [logImpl] lets the logger do, for a report
    of [duration] seconds: the outcome of the call when the test passes,
    nothing at all when it does not. *)
Definition logger_step (t : AutoTimer TP L) (msg : string)
    (duration : float) (e : W) : outcome E unit * (L * W) :=
  if (minTimeToLog_ t <=? duration)%float
  then Logger_call msg duration (logger_ t, e)
  else (Returned tt, (logger_ t, e)).

(** The events one report of [duration] seconds adds to the trace. *)
Definition report_events (t : AutoTimer TP L) (msg : string)
    (duration : float) : list Event :=
  EvReport msg duration ::
  (if (minTimeToLog_ t <=? duration)%float
   then [EvLogger msg duration] else []).

(** Reading of the specification, "the moved-from source must not also
    report": once [a] has been moved from, destroying what is left of it
    adds no report. *)
Definition moved_from_source_is_silent (a : AutoTimer TP L) (w : World W)
  : Prop :=
  reports (trace (snd (scope_exit (Returned tt) (snd (AutoTimer_move a), w))))
  = reports (trace w).

(** Reading of the specification, "formatting cost is attributed to the
    interval just closed": the value a formatted report returns runs up to
    what the clock reads once the message is built. *)
Definition formatting_in_closed_interval (build : M E W string) (s : Self)
  : Prop :=
  forall now_ e1 msg e2 built e3,
    Clock_now (env (snd s)) = (Returned now_, e1) ->
    build e1 = (Returned msg, e2) ->
    Clock_now e2 = (Returned built, e3) ->
    fst (log_args build s)
    = Returned (seconds_between built (start_ (fst s))).

(** Reading of the specification, "every report resets the checkpoint to
    a fresh clock sample taken after the logger call": whatever the report
    does, the checkpoint it leaves is what the clock reads in the
    environment the logger step left. *)
Definition report_resets_checkpoint (now_ : TP) (msg : string) (s : Self)
  : Prop :=
  forall (p : TP) (e' : W),
    Clock_now
      (snd (snd (logger_step (fst s) msg
                   (seconds_between now_ (start_ (fst s))) (env (snd s)))))
    = (Returned p, e') ->
    start_ (fst (snd (logImpl now_ msg s))) = p.


End AutoTimer.

(** ** struct GoogleLogger, the default logger

    glog and [folly::prettyPrint] are outside this file: [LOG_INFO line] is
    [LOG(INFO) << line], [prettyPrint] is [folly::prettyPrint] with its
    [PrettyType] argument, [ostream_double] is [operator<<(double)]. *)

Inductive GoogleLoggerStyle : Type := SECONDS | PRETTY.

Definition GoogleLoggerStyle_eqb (a b : GoogleLoggerStyle) : bool :=
  match a, b with
  | SECONDS, SECONDS => true
  | PRETTY, PRETTY => true
  | _, _ => false
  end.

(** [template <GoogleLoggerStyle> struct GoogleLogger]: no data members. *)
Inductive GoogleLogger (Style : GoogleLoggerStyle) : Type := GoogleLogger_obj.

(** [StringPiece::empty()]. *)
Definition empty (s : string) : bool :=
  match s with
  | EmptyString => true
  | String _ _ => false
  end.

Section GoogleLogger.
Context {E W : Type}.
Variable LOG_INFO : string -> M E W unit.
Variable PrettyType : Type.
Variable PRETTY_TIME : PrettyType.
Variable prettyPrint : float -> PrettyType -> string.
Variable ostream_double : float -> string.

(** [void operator()(StringPiece msg, double sec) const]. *)
Definition GoogleLogger_call (Style : GoogleLoggerStyle)
    (msg : string) (sec : float) : M E W unit :=
  if empty msg then ret tt
  else if GoogleLoggerStyle_eqb Style PRETTY
       then LOG_INFO (msg ++ " in " ++ prettyPrint sec PRETTY_TIME)
       else LOG_INFO (msg ++ " in " ++ ostream_double sec ++ " seconds").

#[local] Instance GoogleLogger_Logger (Style : GoogleLoggerStyle)
  : Logger E W (GoogleLogger Style) := {
  Logger_default := GoogleLogger_obj Style;
  Logger_move := fun l => (l, l);
  Logger_call := fun msg sec lw =>
    let (r, e') := GoogleLogger_call Style msg sec (snd lw) in
    (r, (fst lw, e'));
  Logger_dtor_noexcept := true
}.

End GoogleLogger.

(** ** Test doubles: a controllable clock and a capturing logger *)

Module Fake.

(** Exceptions are identified by their [what()] string. *)
Definition exn : Type := string.

(** The environment of a test: the fake clock's current tick count
    (nanoseconds) and what the capturing logger has received. *)
Record Env : Type := mkEnv {
  ticks : Z;
  sink : list (string * float)
}.

(** Conversion of an integer to [double], rounding to nearest even. *)
Definition double_of_Z (z : Z) : float :=
  SF2Prim (binary_normalize prec emax z 0 false).

(** A clock with [period = std::nano]: [duration_cast<duration<double>>]
    divides the tick count, converted to [double], by 1e9. *)
#[local] Instance FakeClock : Clock exn Env Z := {
  Clock_now := fun w => (Returned (ticks w), w);
  seconds_between := fun a b => (double_of_Z (a - b) / 1e9)%float
}.

(** The test moves the clock. *)
Definition advance_to (t : Z) (w : Env) : Env :=
  {| ticks := t; sink := sink w |}.

(** A capturing logger.  [latency] is the time one call takes; a logger
    with [broken = true] throws instead of recording.  The object holds
    no owned resource: moving it copies it. *)
Record Spy : Type := mkSpy { latency : Z; broken : bool }.

Definition Spy_call (msg : string) (sec : float) : M exn (Spy * Env) unit :=
  fun lw =>
    if broken (fst lw)
    then (Thrown "sink unavailable"%string, lw)
    else (Returned tt,
          (fst lw,
           {| ticks := ticks (snd lw) + latency (fst lw);
              sink := sink (snd lw) ++ [(msg, sec)] |})).

#[local] Instance Spy_Logger : Logger exn Env Spy := {
  Logger_default := {| latency := 0; broken := false |};
  Logger_move := fun l => (l, l);
  Logger_call := Spy_call;
  Logger_dtor_noexcept := true
}.

(** The same logger with [~Spy() noexcept(false)]. *)
Definition Spy_Logger_throwing_dtor : Logger exn Env Spy := {|
  Logger_default := {| latency := 0; broken := false |};
  Logger_move := fun l => (l, l);
  Logger_call := Spy_call;
  Logger_dtor_noexcept := false
|}.

(** Building a message takes [cost] nanoseconds. *)
Definition slow_build (cost : Z) (msg : string) : M exn Env string :=
  fun w => (Returned msg, {| ticks := ticks w + cost; sink := sink w |}).

Definition spy : Spy := {| latency := 0; broken := false |}.

Definition world0 : World Env :=
  {| env := {| ticks := 0; sink := [] |}; trace := [] |}.

(** The test advances the clock while a timer is live. *)
Definition advance {A : Type} (t : Z) (s : A * World Env) : A * World Env :=
  (fst s, {| env := advance_to t (env (snd s)); trace := trace (snd s) |}).

(** The objects of the tests. *)
Definition timer_work : AutoTimer Z Spy :=
  {| destructionMessage_ := "work"; start_ := 0%Z;
     minTimeToLog_ := 0%float; logger_ := spy |}.

Definition timer_unnamed : AutoTimer Z Spy :=
  {| destructionMessage_ := EmptyString; start_ := 0%Z;
     minTimeToLog_ := 0%float; logger_ := spy |}.

Definition timer_threshold_1s : AutoTimer Z Spy :=
  {| destructionMessage_ := "work"; start_ := 0%Z;
     minTimeToLog_ := 1%float; logger_ := spy |}.

Definition timer_slow_logger : AutoTimer Z Spy :=
  {| destructionMessage_ := "work"; start_ := 0%Z;
     minTimeToLog_ := 0%float;
     logger_ := {| latency := 10000000000%Z; broken := false |} |}.

Definition timer_broken_logger : AutoTimer Z Spy :=
  {| destructionMessage_ := "work"; start_ := 0%Z;
     minTimeToLog_ := 0%float;
     logger_ := {| latency := 0%Z; broken := true |} |}.

(** A timer whose checkpoint lies 5 s ahead of a clock that was set back. *)
Definition timer_clock_set_back : AutoTimer Z Spy :=
  {| destructionMessage_ := "work"; start_ := 5000000000%Z;
     minTimeToLog_ := 0%float; logger_ := spy |}.

(** A timer constructed with a NaN threshold. *)
Definition timer_nan_threshold : AutoTimer Z Spy :=
  {| destructionMessage_ := "work"; start_ := 0%Z;
     minTimeToLog_ := nan; logger_ := spy |}.

(** A message builder that throws, as [format] does on a bad format
    string, after 1 s. *)
Definition failing_build : M exn Env string :=
  fun w => (Thrown "invalid format string"%string,
            {| ticks := ticks w + 1000000000; sink := sink w |}).

(** A world in which the clock reads [t] and nothing has been logged. *)
Definition world_at (t : Z) : World Env :=
  {| env := {| ticks := t; sink := [] |}; trace := [] |}.

(** A capturing logger whose sink is unavailable for its first [failures]
    calls: each call takes [stall] nanoseconds, then throws while failures
    are left and records afterwards. *)
Record Flaky : Type := mkFlaky { stall : Z; failures : nat }.

Definition Flaky_call (msg : string) (sec : float)
  : M exn (Flaky * Env) unit :=
  fun lw =>
    match failures (fst lw) with
    | S n =>
        (Thrown "sink unavailable"%string,
         ({| stall := stall (fst lw); failures := n |},
          {| ticks := ticks (snd lw) + stall (fst lw);
             sink := sink (snd lw) |}))
    | O =>
        (Returned tt,
         (fst lw,
          {| ticks := ticks (snd lw) + stall (fst lw);
             sink := sink (snd lw) ++ [(msg, sec)] |}))
    end.

Definition Flaky_Logger : Logger exn Env Flaky := {|
  Logger_default := {| stall := 0; failures := 0 |};
  Logger_move := fun l => (l, l);
  Logger_call := Flaky_call;
  Logger_dtor_noexcept := true
|}.

(** A timer whose logger takes 10 s and fails once. *)
Definition timer_flaky_logger : AutoTimer Z Flaky :=
  {| destructionMessage_ := "work"; start_ := 0%Z;
     minTimeToLog_ := 0%float;
     logger_ := {| stall := 10000000000%Z; failures := 1 |} |}.

(** The body of the scenario's scope: the clock is moved to 2.5 s, the code
    calls [log("step1")], the clock is moved to 3.0 s. *)
Definition scenario_body : M exn (AutoTimer Z Spy * World Env) float :=
  fun s =>
    let (r, s2) := log "step1" (advance 2500000000%Z s) in
    (r, advance 3000000000%Z s2).

End Fake.

(** ** Code that uses a timer *)

Section Block.
Context {E W TP L : Type} {clock : Clock E W TP} {logger : Logger E W L}.

Local Open Scope cpp_scope.

(** One statement of a block in which a timer [t] is live, as in the
    example of the class comment: [doWork(); t.log("Do work finished");
    doMoreWork();]. *)
Inductive stmt : Type :=
| Work (f : M E W unit)              (* code that does not touch [t] *)
| Log (msg : string)                 (* [t.log(msg)] *)
| LogArgs (build : M E W string)     (* [t.log(args...)] *)
| LogFormat (build : M E W string).  (* [t.logFormat(args...)] *)

(** Runs one statement; the result lists what the report returned. *)
Definition run_stmt (c : stmt) : M E (@Self W TP L) (list float) :=
  match c with
  | Work f => global (in_env f) ;; ret []
  | Log msg => v <- log msg ;; ret [v]
  | LogArgs build => v <- log_args build ;; ret [v]
  | LogFormat build => v <- logFormat build ;; ret [v]
  end.

(** Runs the statements in order; an exception ends the block. *)
Fixpoint run_block (b : list stmt) : M E (@Self W TP L) (list float) :=
  match b with
  | [] => ret []
  | c :: b' =>
      vs <- run_stmt c ;;
      ws <- run_block b' ;;
      ret (vs ++ ws)
  end.

(** The number of report statements of a block. *)
Fixpoint count_reports (b : list stmt) : nat :=
  match b with
  | [] => 0
  | Work _ :: b' => count_reports b'
  | _ :: b' => S (count_reports b')
  end.

(** Capabilities that always return: a clock such as those of
    [std::chrono], whose [now()] is [noexcept]; a logger that does not
    throw; statements whose own code and message construction return. *)
Definition clock_returns : Prop :=
  forall e : W, exists (p : TP) (e' : W), Clock_now e = (Returned p, e').

Definition logger_returns : Prop :=
  forall (msg : string) (sec : float) (lw : L * W),
  exists lw' : L * W, Logger_call msg sec lw = (Returned tt, lw').

Definition stmt_returns (c : stmt) : Prop :=
  match c with
  | Work f => forall e : W, exists e' : W, f e = (Returned tt, e')
  | Log _ => True
  | LogArgs build | LogFormat build =>
      forall e : W, exists (msg : string) (e' : W), build e = (Returned msg, e')
  end.

(** What any piece of code using the public interface does to a timer and
    to the trace, from state [s] to state [s'] with outcome [o]: message
    and threshold are kept; the events added contain no logger call below
    the threshold, no logger call that is not a report, no more logger
    calls than reports; and the values returned are the durations of the
    reports added. *)
Definition respects_timer (s s' : @Self W TP L) (o : outcome E (list float))
  : Prop :=
  destructionMessage_ (fst s') = destructionMessage_ (fst s)
  /\ minTimeToLog_ (fst s') = minTimeToLog_ (fst s)
  /\ exists evs : list Event,
      trace (snd s') = trace (snd s) ++ evs
      /\ Forall (fun md => (minTimeToLog_ (fst s) <=? snd md)%float = true)
           (logger_calls evs)
      /\ incl (logger_calls evs) (reports evs)
      /\ (length (logger_calls evs) <= length (reports evs))%nat
      /\ (forall vs, o = Returned vs -> map snd (reports evs) = vs).

End Block.

(** ** A block that fails *)

(** [t.logFormat(...)] with a bad format string, under the capturing
    logger of the tests. *)
Definition failing_block : list (@stmt Fake.exn Fake.Env) :=
  [LogFormat Fake.failing_build].

(** ** Test double for glog *)

Module FakeGlog.

(** The clock's tick count (nanoseconds) and the lines written with
    [LOG(INFO)]. *)
Record Env : Type := mkEnv {
  ticks : Z;
  lines : list string
}.

#[local] Instance FakeClock : Clock Fake.exn Env Z := {
  Clock_now := fun w => (Returned (ticks w), w);
  seconds_between := fun a b => (Fake.double_of_Z (a - b) / 1e9)%float
}.

Definition LOG_INFO (line : string) : M Fake.exn Env unit :=
  fun w => (Returned tt, {| ticks := ticks w; lines := lines w ++ [line] |}).

(** Stand-ins for [folly::prettyPrint] and [operator<<(double)], which are
    outside this file: every duration is rendered as a fixed tag. *)
Inductive PrettyType : Type := PRETTY_TIME.

Definition prettyPrint (sec : float) (ty : PrettyType) : string := "<time>".

Definition ostream_double (sec : float) : string := "<sec>".

Definition glog (Style : GoogleLoggerStyle)
  : Logger Fake.exn Env (GoogleLogger Style) :=
  GoogleLogger_Logger LOG_INFO PRETTY_TIME prettyPrint ostream_double Style.

(** [AutoTimer t("Foo() completed")] of the class comment, constructed
    when the clock read 0. *)
Definition timer_foo : AutoTimer Z (GoogleLogger PRETTY) :=
  {| destructionMessage_ := "Foo() completed"; start_ := 0%Z;
     minTimeToLog_ := 0%float; logger_ := GoogleLogger_obj PRETTY |}.

(** [AutoTimer t], used for timing only. *)
Definition timer_silent : AutoTimer Z (GoogleLogger PRETTY) :=
  {| destructionMessage_ := EmptyString; start_ := 0%Z;
     minTimeToLog_ := 0%float; logger_ := GoogleLogger_obj PRETTY |}.

Definition world_at (t : Z) : World Env :=
  {| env := {| ticks := t; lines := [] |}; trace := [] |}.

(** [doWork()] taking [cost] nanoseconds. *)
Definition doWork (cost : Z) : M Fake.exn Env unit :=
  fun w => (Returned tt, {| ticks := ticks w + cost; lines := lines w |}).

(** The block of the class comment: [doWork(); t.log("Do work finished");
    doMoreWork();], with 1.2 s and 3.1 s of work. *)
Definition class_comment_block : list (@stmt Fake.exn Env) :=
  [Work (doWork 1200000000); Log "Do work finished";
   Work (doWork 3100000000)].

End FakeGlog.

(** * Properties of the timer *)

(** [m > 0] rules out [0 >= m], also for infinities and NaN. *)
Lemma positive_not_leb_zero (m : float) :
  (0 <? m)%float = true -> (m <=? 0)%float = false.
Proof.
  rewrite ltb_spec, leb_spec. unfold SFltb, SFleb.
  change (Prim2SF 0) with (S754_zero false).
  destruct (Prim2SF m) as [sg|sg| |sg mant ex]; cbn;
    try destruct sg; cbn; congruence.
Qed.

(** Splits a conjunction into its conjuncts, in order. *)
Ltac conjuncts := repeat match goal with |- _ /\ _ => split end.

(** Unfolds the monadic plumbing of the member functions. *)
Ltac unfold_members :=
  unfold AutoTimer_dtor, dtor_body, log, log_args, logFormat, logImpl, now,
    global, in_env, invoke_logger, assign_start_, emit, this, noexcept,
    bind, ret, logger_step, report_events in *;
  cbn [fst snd env trace] in *.

Section AutoTimerFacts.
Context {E W TP L : Type} {clock : Clock E W TP} {logger : Logger E W L}.

Local Open Scope cpp_scope.
Local Open Scope float_scope.

Implicit Types (t : AutoTimer TP L) (w : World W) (s : @Self W TP L).

Lemma reports_app (tr1 tr2 : list Event) :
  reports (tr1 ++ tr2) = reports tr1 ++ reports tr2.
Proof.
  induction tr1 as [|[m d|m d] tr1 IH]; cbn [app reports]; rewrite ?IH;
    reflexivity.
Qed.

Lemma logger_calls_app (tr1 tr2 : list Event) :
  logger_calls (tr1 ++ tr2) = logger_calls tr1 ++ logger_calls tr2.
Proof.
  induction tr1 as [|[m d|m d] tr1 IH]; cbn [app logger_calls];
    rewrite ?IH; reflexivity.
Qed.

(** The trace a report leaves, however the report ends. *)
Lemma logImpl_trace (now_ : TP) (msg : string) s :
  trace (snd (snd (logImpl now_ msg s)))
  = trace (snd s)
      ++ report_events (fst s) msg (seconds_between now_ (start_ (fst s))).
Proof.
  destruct s as [t [e tr]]. unfold_members.
  destruct (minTimeToLog_ t <=? seconds_between now_ (start_ t)); cbn.
  - destruct (Logger_call _ _ _) as [[[]|ex|] [l' e']]; cbn.
    + destruct (Clock_now e') as [[t'|ex|] e2]; cbn;
        rewrite <- app_assoc; reflexivity.
    + rewrite <- app_assoc; reflexivity.
    + rewrite <- app_assoc; reflexivity.
  - destruct (Clock_now e) as [[t'|ex|] e2]; cbn; reflexivity.
Qed.

(** A report whose logger call (if any) and whose closing clock read
    return. *)
Lemma logImpl_returns (now_ : TP) (msg : string) t (e : W)
    (tr : list Event) (fresh : TP) (e2 : W) :
  let d := seconds_between now_ (start_ t) in
  let step := logger_step t msg d e in
  fst step = Returned tt ->
  Clock_now (snd (snd step)) = (Returned fresh, e2) ->
  logImpl now_ msg (t, {| env := e; trace := tr |})
  = (Returned d,
     ({| destructionMessage_ := destructionMessage_ t;
         start_ := fresh;
         minTimeToLog_ := minTimeToLog_ t;
         logger_ := fst (snd step) |},
      {| env := e2; trace := tr ++ report_events t msg d |})).
Proof.
  intros d step. subst step d. unfold_members.
  destruct (minTimeToLog_ t <=? seconds_between now_ (start_ t)); cbn.
  - destruct (Logger_call _ _ _) as [[[]|ex|] [l' e']]; cbn;
      try discriminate.
    intros _ ->. cbn. unfold set_start_, set_logger_. cbn.
    rewrite <- app_assoc. reflexivity.
  - intros _ ->. reflexivity.
Qed.

(** [log(msg)] is the canonical report at the sample [Clock::now()]
    returns. *)
Lemma log_eq (msg : string) t w (now_ : TP) (e1 : W) :
  Clock_now (env w) = (Returned now_, e1) ->
  log msg (t, w) = logImpl now_ msg (t, {| env := e1; trace := trace w |}).
Proof.
  intros H. unfold log, now, global, in_env, bind. cbn. rewrite H.
  reflexivity.
Qed.

Lemma logger_calls_report_events t (msg : string) (d : float) :
  logger_calls (report_events t msg d)
  = if minTimeToLog_ t <=? d then [(msg, d)] else [].
Proof. unfold report_events. destruct (_ <=? _); reflexivity. Qed.

Lemma reports_report_events t (msg : string) (d : float) :
  reports (report_events t msg d) = [(msg, d)].
Proof. unfold report_events. destruct (_ <=? _); reflexivity. Qed.

(** Any value a report returns is the elapsed time. *)
Lemma logImpl_value (now_ : TP) (msg : string) s (v : float) :
  fst (logImpl now_ msg s) = Returned v ->
  v = seconds_between now_ (start_ (fst s)).
Proof.
  destruct s as [t [e tr]]. unfold_members.
  destruct (minTimeToLog_ t <=? _); cbn.
  - destruct (Logger_call _ _ _) as [[[]|ex|] [l' e']]; cbn;
      try discriminate.
    destruct (Clock_now e') as [[t'|ex|] e2]; cbn; congruence.
  - destruct (Clock_now e) as [[t'|ex|] e2]; cbn; congruence.
Qed.

(** A report that passes the threshold test and whose logger call and
    closing clock read return: the logger and the environment are the ones
    [operator()] left. *)
Lemma logImpl_logger_returns (now_ : TP) (msg : string) t (e : W)
    (tr : list Event) (lw : L * W) (fresh : TP) (e2 : W) :
  let d := seconds_between now_ (start_ t) in
  (minTimeToLog_ t <=? d) = true ->
  Logger_call msg d (logger_ t, e) = (Returned tt, lw) ->
  Clock_now (snd lw) = (Returned fresh, e2) ->
  logImpl now_ msg (t, {| env := e; trace := tr |})
  = (Returned d,
     ({| destructionMessage_ := destructionMessage_ t;
         start_ := fresh;
         minTimeToLog_ := minTimeToLog_ t;
         logger_ := fst lw |},
      {| env := e2; trace := tr ++ [EvReport msg d; EvLogger msg d] |})).
Proof.
  intros d Hge Hcall Hclock.
  assert (Hstep : logger_step t msg d e = (Returned tt, lw)).
  { unfold logger_step. rewrite Hge. exact Hcall. }
  rewrite (logImpl_returns now_ msg t e tr (fresh := fresh) (e2 := e2)).
  - fold d. rewrite Hstep. unfold report_events. rewrite Hge. reflexivity.
  - fold d. rewrite Hstep. reflexivity.
  - fold d. rewrite Hstep. exact Hclock.
Qed.

(** A report that passes the threshold test and whose logger call throws:
    the exception leaves the report after that one call, and the
    checkpoint is the old one. *)
Lemma logImpl_logger_throws (now_ : TP) (msg : string) t (e : W)
    (tr : list Event) (ex : E) (lw : L * W) :
  let d := seconds_between now_ (start_ t) in
  (minTimeToLog_ t <=? d) = true ->
  Logger_call msg d (logger_ t, e) = (Thrown ex, lw) ->
  logImpl now_ msg (t, {| env := e; trace := tr |})
  = (Thrown ex,
     (set_logger_ (fst lw) t,
      {| env := snd lw; trace := tr ++ [EvReport msg d; EvLogger msg d] |})).
Proof.
  intros d Hge Hcall. unfold_members. fold d. rewrite Hge. cbn.
  rewrite Hcall. cbn. rewrite <- app_assoc. reflexivity.
Qed.

(** A report that fails the threshold test: the logger and the
    environment see nothing but the closing clock read. *)
Lemma logImpl_below_threshold (now_ : TP) (msg : string) t (e : W)
    (tr : list Event) (fresh : TP) (e2 : W) :
  let d := seconds_between now_ (start_ t) in
  (minTimeToLog_ t <=? d) = false ->
  Clock_now e = (Returned fresh, e2) ->
  logImpl now_ msg (t, {| env := e; trace := tr |})
  = (Returned d,
     (set_start_ fresh t, {| env := e2; trace := tr ++ [EvReport msg d] |})).
Proof.
  intros d Hlt Hclock.
  assert (Hstep : logger_step t msg d e = (Returned tt, (logger_ t, e))).
  { unfold logger_step. rewrite Hlt. reflexivity. }
  rewrite (logImpl_returns now_ msg t e tr (fresh := fresh) (e2 := e2)).
  - fold d. rewrite Hstep. unfold report_events. rewrite Hlt. reflexivity.
  - fold d. rewrite Hstep. reflexivity.
  - fold d. rewrite Hstep. exact Hclock.
Qed.

(** C2.  A report [log(msg)] made when [Clock::now()] reads [now_] has
    the elapsed time [d = seconds_between now_ start_]: the logger is
    invoked with [(msg, d)] exactly when [d >= minTimeToLog_] (and not at
    all otherwise); whatever the report returns is [d]; and it does return
    [d], logger invoked or not, when the logger call (if made) and the
    closing clock read return.  Invoked means that [operator()] runs on
    the timer's logger and the environment: at or above the threshold the
    report leaves the logger and the environment [Logger_call msg d] left
    (up to the closing clock read); below it, it leaves the logger as it
    was and the environment the clock read alone left. *)
Theorem report_returns_elapsed_and_logs_iff_threshold
    (msg : string) t w (now_ : TP) (e1 : W) :
  Clock_now (env w) = (Returned now_, e1) ->
  let d := seconds_between now_ (start_ t) in
  let r := log msg (t, w) in
  logger_calls (trace (snd (snd r)))
  = logger_calls (trace w)
      ++ (if minTimeToLog_ t <=? d then [(msg, d)] else [])
  /\ (forall v, fst r = Returned v -> v = d)
  /\ (forall fresh e2,
        fst (logger_step t msg d e1) = Returned tt ->
        Clock_now (snd (snd (logger_step t msg d e1)))
        = (Returned fresh, e2) ->
        fst r = Returned d)
  /\ (forall (lw : L * W) (fresh : TP) (e2 : W),
        (minTimeToLog_ t <=? d) = true ->
        Logger_call msg d (logger_ t, e1) = (Returned tt, lw) ->
        Clock_now (snd lw) = (Returned fresh, e2) ->
        r = (Returned d,
             ({| destructionMessage_ := destructionMessage_ t;
                 start_ := fresh;
                 minTimeToLog_ := minTimeToLog_ t;
                 logger_ := fst lw |},
              {| env := e2;
                 trace := trace w ++ [EvReport msg d; EvLogger msg d] |})))
  /\ (forall (fresh : TP) (e2 : W),
        (minTimeToLog_ t <=? d) = false ->
        Clock_now e1 = (Returned fresh, e2) ->
        r = (Returned d,
             (set_start_ fresh t,
              {| env := e2; trace := trace w ++ [EvReport msg d] |}))).
Proof.
  intros Hnow d r. subst r. rewrite (log_eq msg t w Hnow).
  conjuncts.
  - rewrite logImpl_trace, logger_calls_app, logger_calls_report_events.
    reflexivity.
  - intros v Hv. apply logImpl_value in Hv. exact Hv.
  - intros fresh e2 Hstep Hclock.
    rewrite (logImpl_returns now_ msg t e1 (trace w) Hstep Hclock).
    reflexivity.
  - intros lw fresh e2 Hge Hcall Hclock.
    apply (logImpl_logger_returns now_ msg t e1 (trace w) Hge Hcall Hclock).
  - intros fresh e2 Hlt Hclock.
    apply (logImpl_below_threshold now_ msg t e1 (trace w) Hlt Hclock).
Qed.

(** C3, as the code has it.  The constructor stores the clock sample it
    takes.  A report that gets through its logger step (the logger is not
    invoked, or is invoked and returns) stores the sample [Clock::now()]
    yields in the environment that step left, so the time a returning
    logger took lies before the new checkpoint.  A report whose logger
    call throws leaves the checkpoint as it was: the next report measures
    from the old checkpoint.  A report made while the clock still reads
    the checkpoint returns 0 and, with a positive threshold, does not
    invoke the logger (for a clock on which equal time points are 0
    seconds apart). *)
Theorem checkpoint_is_latest_sample :
  (forall (msg : string) (minTimetoLog : float) (lg : L) w (t0 : TP) (e1 : W),
      Clock_now (env w) = (Returned t0, e1) ->
      exists t,
        AutoTimer_ctor msg minTimetoLog lg w
        = (Returned t, {| env := e1; trace := trace w |})
        /\ start_ t = t0)
  /\ (forall (now_ : TP) (msg : string) t (e : W) (tr : list Event)
             (fresh : TP) (e2 : W),
        let d := seconds_between now_ (start_ t) in
        let step := logger_step t msg d e in
        fst step = Returned tt ->
        Clock_now (snd (snd step)) = (Returned fresh, e2) ->
        let r := logImpl now_ msg (t, {| env := e; trace := tr |}) in
        fst r = Returned d
        /\ start_ (fst (snd r)) = fresh
        /\ env (snd (snd r)) = e2)
  /\ (forall (msg : string) t w (e1 : W) (fresh : TP) (e2 : W),
        (forall p, seconds_between p p = 0) ->
        Clock_now (env w) = (Returned (start_ t), e1) ->
        Clock_now e1 = (Returned fresh, e2) ->
        (0 <? minTimeToLog_ t) = true ->
        log msg (t, w)
        = (Returned 0,
           (set_start_ fresh t,
            {| env := e2; trace := trace w ++ [EvReport msg 0] |})))
  /\ (forall (now_ : TP) (msg : string) t (e : W) (tr : list Event)
             (lw : L * W) (fresh : TP) (e2 : W),
        let d := seconds_between now_ (start_ t) in
        (minTimeToLog_ t <=? d) = true ->
        Logger_call msg d (logger_ t, e) = (Returned tt, lw) ->
        Clock_now (snd lw) = (Returned fresh, e2) ->
        logImpl now_ msg (t, {| env := e; trace := tr |})
        = (Returned d,
           ({| destructionMessage_ := destructionMessage_ t;
               start_ := fresh;
               minTimeToLog_ := minTimeToLog_ t;
               logger_ := fst lw |},
            {| env := e2;
               trace := tr ++ [EvReport msg d; EvLogger msg d] |})))
  /\ (forall (now_ : TP) (msg : string) t (e : W) (tr : list Event)
             (fresh : TP) (e2 : W),
        let d := seconds_between now_ (start_ t) in
        (minTimeToLog_ t <=? d) = false ->
        Clock_now e = (Returned fresh, e2) ->
        logImpl now_ msg (t, {| env := e; trace := tr |})
        = (Returned d,
           (set_start_ fresh t,
            {| env := e2; trace := tr ++ [EvReport msg d] |})))
  /\ (forall (now_ : TP) (msg : string) t (e : W) (tr : list Event)
             (ex : E) (lw : L * W),
        let d := seconds_between now_ (start_ t) in
        (minTimeToLog_ t <=? d) = true ->
        Logger_call msg d (logger_ t, e) = (Thrown ex, lw) ->
        logImpl now_ msg (t, {| env := e; trace := tr |})
        = (Thrown ex,
           (set_logger_ (fst lw) t,
            {| env := snd lw;
               trace := tr ++ [EvReport msg d; EvLogger msg d] |}))
        /\ start_ (fst (snd (logImpl now_ msg
                               (t, {| env := e; trace := tr |}))))
          = start_ t).
Proof.
  conjuncts; cycle 3.
  - intros now_ msg t e tr lw fresh e2 d Hge Hcall Hclock.
    apply (logImpl_logger_returns now_ msg t e tr Hge Hcall Hclock).
  - intros now_ msg t e tr fresh e2 d Hlt Hclock.
    apply (logImpl_below_threshold now_ msg t e tr Hlt Hclock).
  - intros now_ msg t e tr ex lw d Hge Hcall.
    rewrite (logImpl_logger_throws now_ msg t e tr Hge Hcall).
    split; reflexivity.
  - intros msg m lg w t0 e1 H. unfold AutoTimer_ctor, in_env, bind, ret.
    rewrite H. eexists. split; reflexivity.
  - intros now_ msg t e tr fresh e2 d step Hstep Hclock r. subst r.
    rewrite (logImpl_returns now_ msg t e tr Hstep Hclock).
    repeat split.
  - intros msg t w e1 fresh e2 Hzero Hnow Hfresh Hpos.
    rewrite (log_eq msg t w Hnow).
    assert (Hle : (minTimeToLog_ t <=? 0) = false) by
      (apply positive_not_leb_zero; exact Hpos).
    assert (Hstep :
              logger_step t msg (seconds_between (start_ t) (start_ t)) e1
              = (Returned tt, (logger_ t, e1))).
    { unfold logger_step. rewrite Hzero, Hle. reflexivity. }
    rewrite (logImpl_returns (start_ t) msg t e1 (trace w)
               (fresh := fresh) (e2 := e2)).
    + rewrite Hstep. cbn. unfold report_events. rewrite Hzero, Hle.
      reflexivity.
    + rewrite Hstep. reflexivity.
    + rewrite Hstep. exact Hfresh.
Qed.

(** The threshold is never changed by a report. *)
Lemma logImpl_keeps_threshold (now_ : TP) (msg : string) s :
  minTimeToLog_ (fst (snd (logImpl now_ msg s))) = minTimeToLog_ (fst s).
Proof.
  destruct s as [t [e tr]]. unfold_members.
  destruct (minTimeToLog_ t <=? _); cbn.
  - destruct (Logger_call _ _ _) as [[[]|ex|] [l' e']]; cbn; try reflexivity.
    destruct (Clock_now e') as [[t'|ex|] e2]; reflexivity.
  - destruct (Clock_now e) as [[t'|ex|] e2]; reflexivity.
Qed.

(** The constructor stores its arguments. *)
Lemma AutoTimer_ctor_fields (msg : string) (minTimetoLog : float) (lg : L)
    w t w' :
  AutoTimer_ctor msg minTimetoLog lg w = (Returned t, w') ->
  destructionMessage_ t = msg
  /\ minTimeToLog_ t = minTimetoLog
  /\ logger_ t = fst (Logger_move lg).
Proof.
  intros H. unfold AutoTimer_ctor, in_env, bind, ret in H.
  destruct (Clock_now (env w)) as [[t0|ex|] e1]; try discriminate.
  injection H as <- _. repeat split.
Qed.


(** What the destructor's body does once [Clock::now()] has read [now_]. *)
Lemma dtor_body_eq t w (now_ : TP) (e1 : W) :
  Clock_now (env w) = (Returned now_, e1) ->
  dtor_body (t, w)
  = (let r := logImpl now_ (destructionMessage_ t)
                (t, {| env := e1; trace := trace w |}) in
     match fst r with
     | Returned _ => (Returned tt, snd r)
     | Thrown ex => (Thrown ex, snd r)
     | Terminated => (Terminated, snd r)
     end).
Proof.
  intros H. unfold dtor_body, this, bind, ret. cbn [fst snd].
  rewrite (log_eq (destructionMessage_ t) t w H).
  destruct (logImpl _ _ _) as [[v|ex|] s']; reflexivity.
Qed.

(** The destructor leaves the state its body leaves. *)
Lemma AutoTimer_dtor_state s : snd (AutoTimer_dtor s) = snd (dtor_body s).
Proof.
  unfold AutoTimer_dtor. destruct Logger_dtor_noexcept; [|reflexivity].
  unfold noexcept. destruct (dtor_body s) as [[v|ex|] s']; reflexivity.
Qed.

(** Leaving the scope leaves the world the destructor leaves. *)
Lemma scope_exit_world {A} (pending : outcome E A) s :
  pending <> Terminated ->
  snd (scope_exit pending s) = snd (snd (AutoTimer_dtor s)).
Proof.
  intros H. unfold scope_exit.
  destruct pending as [a|ex|]; [| |congruence];
    destruct (AutoTimer_dtor s) as [[v|ex'|] s']; reflexivity.
Qed.

Lemma dtor_body_trace t w (now_ : TP) (e1 : W) :
  Clock_now (env w) = (Returned now_, e1) ->
  trace (snd (snd (dtor_body (t, w))))
  = trace w ++ report_events t (destructionMessage_ t)
                 (seconds_between now_ (start_ t)).
Proof.
  intros H. rewrite (dtor_body_eq t w H). cbn zeta.
  pose proof (logImpl_trace now_ (destructionMessage_ t)
                (t, {| env := e1; trace := trace w |})) as Htr.
  destruct (logImpl _ _ _) as [[v|ex|] s']; exact Htr.
Qed.

(** Leaving the scope when the final report returns: the scope ends the
    way it was ending, in the world the report left. *)
Lemma scope_exit_report_returns {A} (pending : outcome E A) t w (now_ : TP)
    (e1 : W) (v : float) s' :
  pending <> Terminated ->
  Clock_now (env w) = (Returned now_, e1) ->
  logImpl now_ (destructionMessage_ t) (t, {| env := e1; trace := trace w |})
  = (Returned v, s') ->
  scope_exit pending (t, w) = (pending, snd s').
Proof.
  intros Hpending Hnow Hreport.
  assert (Hbody : dtor_body (t, w) = (Returned tt, s')).
  { rewrite (dtor_body_eq t w Hnow). cbn zeta. rewrite Hreport. reflexivity. }
  assert (Hdtor : AutoTimer_dtor (t, w) = (Returned tt, s')).
  { unfold AutoTimer_dtor. destruct Logger_dtor_noexcept; [|exact Hbody].
    unfold noexcept. rewrite Hbody. reflexivity. }
  unfold scope_exit. rewrite Hdtor.
  destruct pending as [a|ex|]; [reflexivity|reflexivity|congruence].
Qed.

(** C10.  The timer never looks at the message: whenever the elapsed time
    reaches the threshold it invokes the logger it holds, with the message
    as it is.  So a timer whose destruction message is the default empty
    string invokes its logger with the empty string when its scope ends,
    and so does [log()] with no message.  The invocation is the call of
    [operator()] on the timer's logger and the environment, with the
    message as it is, empty or not: the report, the scope exit and [log()]
    leave the logger and the environment that call left, and throw when
    it throws. *)
Theorem timer_passes_empty_message_to_logger :
  (forall (minTimetoLog : float) (lg : L) w t w',
      AutoTimer_ctor default_msg minTimetoLog lg w = (Returned t, w') ->
      destructionMessage_ t = EmptyString)
  /\ (forall (now_ : TP) (msg : string) s,
      (minTimeToLog_ (fst s) <=? seconds_between now_ (start_ (fst s))) = true ->
      logger_calls (trace (snd (snd (logImpl now_ msg s))))
      = logger_calls (trace (snd s))
          ++ [(msg, seconds_between now_ (start_ (fst s)))])
  /\ (forall A (pending : outcome E A) t w (now_ : TP) (e1 : W),
        pending <> Terminated ->
        destructionMessage_ t = default_msg ->
        Clock_now (env w) = (Returned now_, e1) ->
        (minTimeToLog_ t <=? seconds_between now_ (start_ t)) = true ->
        logger_calls (trace (snd (scope_exit pending (t, w))))
        = logger_calls (trace w)
            ++ [(EmptyString, seconds_between now_ (start_ t))])
  /\ (forall t w (now_ : TP) (e1 : W),
        Clock_now (env w) = (Returned now_, e1) ->
        (minTimeToLog_ t <=? seconds_between now_ (start_ t)) = true ->
        logger_calls (trace (snd (snd (log default_msg (t, w)))))
        = logger_calls (trace w)
            ++ [(EmptyString, seconds_between now_ (start_ t))]
        /\ snd (logger_step t default_msg (seconds_between now_ (start_ t)) e1)
          = snd (Logger_call EmptyString (seconds_between now_ (start_ t))
                   (logger_ t, e1)))
  /\ (forall (now_ : TP) (msg : string) t (e : W) (tr : list Event)
             (lw : L * W),
        let d := seconds_between now_ (start_ t) in
        (minTimeToLog_ t <=? d) = true ->
        (Logger_call msg d (logger_ t, e) = (Returned tt, lw) ->
         forall (fresh : TP) (e2 : W),
           Clock_now (snd lw) = (Returned fresh, e2) ->
           logImpl now_ msg (t, {| env := e; trace := tr |})
           = (Returned d,
              ({| destructionMessage_ := destructionMessage_ t;
                  start_ := fresh;
                  minTimeToLog_ := minTimeToLog_ t;
                  logger_ := fst lw |},
               {| env := e2;
                  trace := tr ++ [EvReport msg d; EvLogger msg d] |})))
        /\ (forall ex : E,
              Logger_call msg d (logger_ t, e) = (Thrown ex, lw) ->
              logImpl now_ msg (t, {| env := e; trace := tr |})
              = (Thrown ex,
                 (set_logger_ (fst lw) t,
                  {| env := snd lw;
                     trace := tr ++ [EvReport msg d; EvLogger msg d] |}))))
  /\ (forall A (pending : outcome E A) t w (now_ : TP) (e1 : W)
             (lw : L * W) (fresh : TP) (e2 : W),
        pending <> Terminated ->
        destructionMessage_ t = default_msg ->
        Clock_now (env w) = (Returned now_, e1) ->
        let d := seconds_between now_ (start_ t) in
        (minTimeToLog_ t <=? d) = true ->
        Logger_call EmptyString d (logger_ t, e1) = (Returned tt, lw) ->
        Clock_now (snd lw) = (Returned fresh, e2) ->
        scope_exit pending (t, w)
        = (pending,
           {| env := e2;
              trace := trace w
                       ++ [EvReport EmptyString d; EvLogger EmptyString d] |}))
  /\ (forall t w (now_ : TP) (e1 : W) (lw : L * W) (fresh : TP) (e2 : W),
        Clock_now (env w) = (Returned now_, e1) ->
        let d := seconds_between now_ (start_ t) in
        (minTimeToLog_ t <=? d) = true ->
        Logger_call EmptyString d (logger_ t, e1) = (Returned tt, lw) ->
        Clock_now (snd lw) = (Returned fresh, e2) ->
        log default_msg (t, w)
        = (Returned d,
           ({| destructionMessage_ := destructionMessage_ t;
               start_ := fresh;
               minTimeToLog_ := minTimeToLog_ t;
               logger_ := fst lw |},
            {| env := e2;
               trace := trace w
                        ++ [EvReport EmptyString d;
                            EvLogger EmptyString d] |}))).
Proof.
  conjuncts; cycle 4.
  - intros now_ msg t e tr lw d Hge. split.
    + intros Hcall fresh e2 Hclock.
      apply (logImpl_logger_returns now_ msg t e tr Hge Hcall Hclock).
    + intros ex Hcall.
      apply (logImpl_logger_throws now_ msg t e tr Hge Hcall).
  - intros A pending t w now_ e1 lw fresh e2 Hpending Hmsg Hnow d Hge
      Hcall Hclock.
    rewrite (scope_exit_report_returns (v := d) t w Hpending Hnow
               (s' := ({| destructionMessage_ := destructionMessage_ t;
                          start_ := fresh;
                          minTimeToLog_ := minTimeToLog_ t;
                          logger_ := fst lw |},
                       {| env := e2;
                          trace := trace w
                                   ++ [EvReport EmptyString d;
                                       EvLogger EmptyString d] |}))).
    + reflexivity.
    + pose proof (logImpl_logger_returns now_ EmptyString t e1 (trace w)
                    Hge Hcall Hclock) as Hreport.
      unfold default_msg in Hmsg. rewrite <- Hmsg in Hreport at 1.
      exact Hreport.
  - intros t w now_ e1 lw fresh e2 Hnow d Hge Hcall Hclock.
    unfold default_msg. rewrite (log_eq EmptyString t w Hnow).
    apply (logImpl_logger_returns now_ EmptyString t e1 (trace w)
             Hge Hcall Hclock).
  - intros m lg w t w' H.
    apply AutoTimer_ctor_fields in H. destruct H as (Hmsg & _).
    exact Hmsg.
  - intros now_ msg s Hge.
    rewrite logImpl_trace, logger_calls_app, logger_calls_report_events, Hge.
    reflexivity.
  - intros A pending t w now_ e1 Hpending Hmsg Hnow Hge.
    rewrite (scope_exit_world (t, w) Hpending), AutoTimer_dtor_state.
    rewrite (dtor_body_trace t w Hnow), logger_calls_app.
    rewrite logger_calls_report_events, Hge, Hmsg. reflexivity.
  - intros t w now_ e1 Hnow Hge. split.
    + rewrite (log_eq default_msg t w Hnow).
      rewrite logImpl_trace, logger_calls_app, logger_calls_report_events.
      cbn [fst snd trace]. rewrite Hge. reflexivity.
    + unfold logger_step. rewrite Hge. reflexivity.
Qed.

Lemma scope_exit_reports {A} (pending : outcome E A) t w (now_ : TP)
    (e1 : W) :
  pending <> Terminated ->
  Clock_now (env w) = (Returned now_, e1) ->
  reports (trace (snd (scope_exit pending (t, w))))
  = reports (trace w)
      ++ [(destructionMessage_ t, seconds_between now_ (start_ t))].
Proof.
  intros Hpending Hnow.
  rewrite (scope_exit_world (t, w) Hpending), AutoTimer_dtor_state.
  rewrite (dtor_body_trace t w Hnow), reports_app, reports_report_events.
  reflexivity.
Qed.

(** C1, as the code has it.  Leaving the scope of a timer, by normal
    completion, [return] or an exception, makes exactly one report with the
    stored destruction message, measured from the current checkpoint (given
    that the clock read returns).  Move construction keeps the destruction
    message, the checkpoint and the threshold in the source as well as in
    the target, and nothing marks the source as moved from: the target and
    the moved-from source each make that report when their scope ends. *)
Theorem every_destroyed_timer_reports_once :
  (forall A (pending : outcome E A) t w (now_ : TP) (e1 : W),
      pending <> Terminated ->
      Clock_now (env w) = (Returned now_, e1) ->
      reports (trace (snd (scope_exit pending (t, w))))
      = reports (trace w)
          ++ [(destructionMessage_ t, seconds_between now_ (start_ t))])
  /\ (forall a : AutoTimer TP L,
        let b := fst (AutoTimer_move a) in
        let a' := snd (AutoTimer_move a) in
        (destructionMessage_ b = destructionMessage_ a
         /\ start_ b = start_ a /\ minTimeToLog_ b = minTimeToLog_ a)
        /\ (destructionMessage_ a' = destructionMessage_ a
            /\ start_ a' = start_ a /\ minTimeToLog_ a' = minTimeToLog_ a))
  /\ (forall A (pending : outcome E A) (a : AutoTimer TP L) w (now_ : TP)
             (e1 : W),
        pending <> Terminated ->
        Clock_now (env w) = (Returned now_, e1) ->
        reports (trace (snd (scope_exit pending (fst (AutoTimer_move a), w))))
        = reports (trace w)
            ++ [(destructionMessage_ a, seconds_between now_ (start_ a))]
        /\ reports (trace (snd (scope_exit pending (snd (AutoTimer_move a), w))))
          = reports (trace w)
              ++ [(destructionMessage_ a, seconds_between now_ (start_ a))]).
Proof.
  split; [|split].
  - intros A pending t w now_ e1. apply scope_exit_reports.
  - intros a. cbn. repeat split.
  - intros A pending a w now_ e1 Hpending Hnow. split.
    + rewrite (scope_exit_reports _ _ Hpending Hnow). reflexivity.
    + rewrite (scope_exit_reports _ _ Hpending Hnow). reflexivity.
Qed.


(** A formatted report once the clock has been read and the message built. *)
Lemma log_args_eq (build : M E W string) t w (now_ : TP) (e1 : W)
    (msg : string) (e2 : W) :
  Clock_now (env w) = (Returned now_, e1) ->
  build e1 = (Returned msg, e2) ->
  log_args build (t, w)
  = logImpl now_ msg (t, {| env := e2; trace := trace w |}).
Proof.
  intros Hnow Hbuild. unfold log_args, now, global, in_env, bind.
  cbn [fst snd env trace]. rewrite Hnow. cbn [fst snd env trace].
  rewrite Hbuild. reflexivity.
Qed.





(** [to<std::string>] of a string: the variadic [log] on an already-built
    string is the base [log]. *)
Lemma log_args_ret (msg : string) s : log_args (ret msg) s = log msg s.
Proof.
  destruct s as [t [e tr]]. unfold log_args, log, now, global, in_env, bind, ret.
  cbn [fst snd env trace].
  destruct (Clock_now e) as [[now_|ex|] e1]; reflexivity.
Qed.

(** C5, as the code has it.  [log(args...)] and [logFormat(args...)] read
    the clock, then build the message, then run the canonical report with
    the sample read before the message was built; on an already-built
    string they are the base [log].  The value returned is measured up to
    that early sample, and the new checkpoint is read after the logger step
    that follows the construction of the message: the time spent building
    the message lies in neither the interval just closed nor the next. *)
Theorem formatted_reports_use_the_early_sample :
  (forall (build : M E W string) t w (now_ : TP) (e1 : W) (msg : string)
          (e2 : W),
      Clock_now (env w) = (Returned now_, e1) ->
      build e1 = (Returned msg, e2) ->
      log_args build (t, w)
      = logImpl now_ msg (t, {| env := e2; trace := trace w |})
      /\ logFormat build (t, w)
        = logImpl now_ msg (t, {| env := e2; trace := trace w |}))
  /\ (forall (msg : string) s,
        log_args (ret msg) s = log msg s
        /\ logFormat (ret msg) s = log msg s)
  /\ (forall (build : M E W string) t w (now_ : TP) (e1 : W) (msg : string)
             (e2 : W) (fresh : TP) (e3 : W),
        Clock_now (env w) = (Returned now_, e1) ->
        build e1 = (Returned msg, e2) ->
        let d := seconds_between now_ (start_ t) in
        let step := logger_step t msg d e2 in
        fst step = Returned tt ->
        Clock_now (snd (snd step)) = (Returned fresh, e3) ->
        log_args build (t, w)
        = (Returned d,
           ({| destructionMessage_ := destructionMessage_ t;
               start_ := fresh;
               minTimeToLog_ := minTimeToLog_ t;
               logger_ := fst (snd step) |},
            {| env := e3; trace := trace w ++ report_events t msg d |}))).
Proof.
  split; [|split].
  - intros build t w now_ e1 msg e2 Hnow Hbuild. split.
    + apply (log_args_eq build t w Hnow Hbuild).
    + apply (log_args_eq build t w Hnow Hbuild).
  - intros msg s. split; apply log_args_ret.
  - intros build t w now_ e1 msg e2 fresh e3 Hnow Hbuild d step Hstep Hclock.
    rewrite (log_args_eq build t w Hnow Hbuild).
    apply (logImpl_returns now_ msg t e2 (trace w) Hstep Hclock).
Qed.

(** C9.  [makeAutoTimer] is the constructor on the same arguments: the same
    computation, hence the same object in the same world; when the clock
    read returns [t0], that object holds the message, the threshold, the
    logger moved in, and the checkpoint [t0]. *)
Theorem makeAutoTimer_is_the_constructor
    (msg : string) (minTimeToLog : float) (lg : L) :
  (forall w,
      makeAutoTimer msg minTimeToLog lg w
      = AutoTimer_ctor msg minTimeToLog lg w)
  /\ (forall w (t0 : TP) (e1 : W),
        Clock_now (env w) = (Returned t0, e1) ->
        makeAutoTimer msg minTimeToLog lg w
        = (Returned {| destructionMessage_ := msg;
                       start_ := t0;
                       minTimeToLog_ := minTimeToLog;
                       logger_ := fst (Logger_move lg) |},
           {| env := e1; trace := trace w |}))
  /\ (forall w (ex : E) (e1 : W),
        Clock_now (env w) = (Thrown ex, e1) ->
        makeAutoTimer msg minTimeToLog lg w
        = (Thrown ex, {| env := e1; trace := trace w |})).
Proof.
  split; [|split].
  - reflexivity.
  - intros w t0 e1 H. unfold makeAutoTimer, AutoTimer_ctor, in_env, bind, ret.
    rewrite H. reflexivity.
  - intros w ex e1 H. unfold makeAutoTimer, AutoTimer_ctor, in_env, bind, ret.
    rewrite H. reflexivity.
Qed.

End AutoTimerFacts.

(** * Properties of the default logger *)

Section GoogleLoggerFacts.
Context {E W : Type}.
Variable LOG_INFO : string -> M E W unit.
Variable PrettyType : Type.
Variable PRETTY_TIME : PrettyType.
Variable prettyPrint : float -> PrettyType -> string.
Variable ostream_double : float -> string.

Local Abbreviation glog Style :=
  (GoogleLogger_Logger LOG_INFO PRETTY_TIME prettyPrint ostream_double Style).

(** With a message, each style writes its line. *)
Lemma GoogleLogger_call_nonempty (Style : GoogleLoggerStyle) (c : Ascii.ascii)
    (msg : string) (sec : float) (e : W) :
  GoogleLogger_call LOG_INFO PRETTY_TIME prettyPrint ostream_double Style
    (String c msg) sec e
  = match Style with
    | PRETTY =>
        LOG_INFO (String c msg ++ " in " ++ prettyPrint sec PRETTY_TIME) e
    | SECONDS =>
        LOG_INFO (String c msg ++ " in " ++ ostream_double sec ++ " seconds") e
    end.
Proof. destruct Style; reflexivity. Qed.

(** C7.  For both styles and every elapsed value, the default logger called
    with the empty message returns at once: [LOG(INFO)] is not evaluated and
    the environment is as before.  So when a timer holding it reports with an
    empty message, at or above the threshold or not, the logger step leaves
    the logger and the environment untouched. *)
Theorem GoogleLogger_silent_on_empty_message
    (Style : GoogleLoggerStyle) (sec : float) (e : W) :
  GoogleLogger_call LOG_INFO PRETTY_TIME prettyPrint ostream_double Style
    EmptyString sec e
  = (Returned tt, e)
  /\ (forall l : GoogleLogger Style,
        Logger_call (Logger := glog Style) EmptyString sec (l, e)
        = (Returned tt, (l, e)))
  /\ (forall (TP : Type) (t : AutoTimer TP (GoogleLogger Style)),
        logger_step (logger := glog Style) t EmptyString sec e
        = (Returned tt, (logger_ t, e))).
Proof.
  split; [|split].
  - reflexivity.
  - intros l. reflexivity.
  - intros TP t. unfold logger_step.
    destruct (minTimeToLog_ t <=? sec)%float; reflexivity.
Qed.

End GoogleLoggerFacts.

(** * The timer under test: fake clock and capturing logger *)

Section Scenarios.
Import Fake.
#[local] Existing Instance FakeClock.
#[local] Existing Instance Spy_Logger.

Local Open Scope Z_scope.
Local Open Scope string_scope.

(** On the fake clock equal time points are 0 seconds apart. *)
Lemma FakeClock_same_point (p : Z) : seconds_between p p = 0%float.
Proof. cbn. rewrite Z.sub_diag. reflexivity. Qed.

(** C4.  The scenario of the specification.  Constructed at t = 0 with
    message "work" and threshold 0.0; at t = 2.5 s [log("step1")] returns
    2.5 and the logger receives ("step1", 2.5), once; the scope is left at
    t = 3.0 s and the logger receives ("work", 0.5), once. *)
Theorem scenario_work_step1 :
  AutoTimer_ctor "work" 0%float spy world0 = (Returned timer_work, world0)
  /\ log "step1" (advance 2500000000 (timer_work, world0))
    = (Returned 2.5%float,
       (set_start_ 2500000000 timer_work,
        {| env := {| ticks := 2500000000; sink := [("step1", 2.5%float)] |};
           trace := [EvReport "step1" 2.5; EvLogger "step1" 2.5] |}))
  /\ scope_exit (Returned 2.5%float)
      (advance 3000000000
         (set_start_ 2500000000 timer_work,
          {| env := {| ticks := 2500000000; sink := [("step1", 2.5%float)] |};
             trace := [EvReport "step1" 2.5; EvLogger "step1" 2.5] |}))
    = (Returned 2.5%float,
       {| env := {| ticks := 3000000000;
                    sink := [("step1", 2.5%float); ("work", 0.5%float)] |};
          trace := [EvReport "step1" 2.5; EvLogger "step1" 2.5;
                    EvReport "work" 0.5; EvLogger "work" 0.5] |})
  /\ scoped "work" 0%float spy scenario_body world0
    = (Returned 2.5%float,
       {| env := {| ticks := 3000000000;
                    sink := [("step1", 2.5%float); ("work", 0.5%float)] |};
          trace := [EvReport "step1" 2.5; EvLogger "step1" 2.5;
                    EvReport "work" 0.5; EvLogger "work" 0.5] |}).
Proof. repeat split; vm_compute; reflexivity. Qed.

(** The other scenario of the specification: with threshold 1.0, a scope
    left 0.3 s after construction does not invoke the logger, and a manual
    report at that time returns 0.3 (the double nearest to it). *)
Example scenario_below_threshold :
  logger_calls
    (trace (snd (scope_exit (Returned tt)
                   (advance 300000000 (timer_threshold_1s, world0)))))
  = []
  /\ fst (log default_msg (advance 300000000 (timer_threshold_1s, world0)))
    = Returned 0x1.3333333333333p-2%float.
Proof. split; vm_compute; reflexivity. Qed.

(** A logger that takes 10 s: the report made 0.5 s after it has returned
    measures 0.5 s. *)
Example logger_time_is_not_measured :
  let s1 := snd (log "step1" (advance 2500000000 (timer_slow_logger, world0))) in
  ticks (env (snd s1)) = 12500000000
  /\ start_ (fst s1) = 12500000000
  /\ fst (log "step2" (advance 13000000000 s1)) = Returned 0.5%float.
Proof. repeat split; vm_compute; reflexivity. Qed.

(** A timer is moved into another one second after its construction and
    both leave their scope: the logger receives the message twice. *)
Example moved_timer_reports_twice :
  move_then_exit timer_work (world_at 1000000000)
  = (Returned tt,
     {| env := {| ticks := 1000000000;
                  sink := [("work", 1%float); ("work", 1%float)] |};
        trace := [EvReport "work" 1; EvLogger "work" 1;
                  EvReport "work" 1; EvLogger "work" 1] |}).
Proof. vm_compute. reflexivity. Qed.

(** C1, counterexample.  After [AutoTimer b(std::move(a))] the moved-from
    [a] still reports "work" when its scope ends. *)
Lemma moved_from_source_reports :
  ~ moved_from_source_is_silent timer_work (world_at 1000000000).
Proof. unfold moved_from_source_is_silent. vm_compute. discriminate. Qed.

(** C1, the amended statement at the test timer. *)
Lemma every_destroyed_timer_reports_once_witness :
  (Returned tt : outcome exn unit) <> Terminated
  /\ Clock_now (env (world_at 1000000000))
    = (Returned 1000000000, env (world_at 1000000000))
  /\ reports (trace (snd (scope_exit (Returned tt)
                           (fst (AutoTimer_move timer_work),
                            world_at 1000000000))))
    = [("work", 1%float)]
  /\ reports (trace (snd (scope_exit (Returned tt)
                           (snd (AutoTimer_move timer_work),
                            world_at 1000000000))))
    = [("work", 1%float)].
Proof.
  assert (Hpending : (Returned tt : outcome exn unit) <> Terminated)
    by discriminate.
  split; [exact Hpending|]. split; [reflexivity|].
  destruct (every_destroyed_timer_reports_once
              (clock := FakeClock) (logger := Spy_Logger))
    as (_ & _ & Hboth).
  exact (Hboth unit (Returned tt) timer_work (world_at 1000000000)
           1000000000 (env (world_at 1000000000)) Hpending eq_refl).
Defined.

(** C2 at the test timer: 2.5 s after the checkpoint, threshold 0.0. *)
Lemma report_returns_elapsed_witness :
  Clock_now (env (world_at 2500000000))
  = (Returned 2500000000, env (world_at 2500000000))
  /\ fst (log "step1" (timer_work, world_at 2500000000)) = Returned 2.5%float
  /\ logger_calls
      (trace (snd (snd (log "step1" (timer_work, world_at 2500000000)))))
    = [("step1", 2.5%float)]
  /\ Logger_call "step1" 2.5%float
      (logger_ timer_work, env (world_at 2500000000))
    = (Returned tt,
       (spy, {| ticks := 2500000000; sink := [("step1", 2.5%float)] |}))
  /\ log "step1" (timer_work, world_at 2500000000)
    = (Returned 2.5%float,
       (set_start_ 2500000000 timer_work,
        {| env := {| ticks := 2500000000; sink := [("step1", 2.5%float)] |};
           trace := [EvReport "step1" 2.5; EvLogger "step1" 2.5] |})).
Proof.
  split; [reflexivity|].
  destruct (report_returns_elapsed_and_logs_iff_threshold
              (clock := FakeClock) (logger := Spy_Logger)
              "step1" timer_work (world_at 2500000000)
              (now_ := 2500000000) (e1 := env (world_at 2500000000)) eq_refl)
    as (Hcalls & _ & Hreturns & Hlogged & _).
  split; [|split; [|split]].
  - exact (Hreturns 2500000000
             {| ticks := 2500000000; sink := [("step1", 2.5%float)] |}
             eq_refl eq_refl).
  - exact Hcalls.
  - reflexivity.
  - exact (Hlogged
             (spy, {| ticks := 2500000000; sink := [("step1", 2.5%float)] |})
             2500000000
             {| ticks := 2500000000; sink := [("step1", 2.5%float)] |}
             eq_refl eq_refl eq_refl).
Defined.

(** C3, counterexample.  The checkpoint is 0 s and the clock reads 3 s;
    the logger takes 10 s and throws.  The clock then reads 13 s, but the
    checkpoint the report leaves is still 0 s. *)
Lemma failed_report_keeps_old_checkpoint :
  ~ report_resets_checkpoint (clock := FakeClock) (logger := Flaky_Logger)
      3000000000 "step1" (timer_flaky_logger, world_at 3000000000).
Proof.
  intros H.
  specialize (H 13000000000 {| ticks := 13000000000; sink := [] |} eq_refl).
  vm_compute in H. discriminate.
Qed.

(** The report that follows measures 13 s: the 10 s spent inside the
    failed logger call are in its interval. *)
Example failed_logger_time_is_measured :
  let r := log (clock := FakeClock) (logger := Flaky_Logger) "step1"
             (timer_flaky_logger, world_at 3000000000) in
  fst r = Thrown "sink unavailable"
  /\ ticks (env (snd (snd r))) = 13000000000
  /\ start_ (fst (snd r)) = 0
  /\ fst (log (clock := FakeClock) (logger := Flaky_Logger) "next" (snd r))
    = Returned 13%float
  /\ sink (env (snd (snd (log (clock := FakeClock) (logger := Flaky_Logger)
                            "next" (snd r)))))
    = [("next", 13%float)].
Proof. repeat split; vm_compute; reflexivity. Qed.

(** C3, the amended statement under test.  With threshold 1.0, a report
    made while the clock still reads the checkpoint returns 0 and does not
    reach the logger; a logger that takes 10 s and returns leaves the
    checkpoint at the sample read after it; a logger that takes 10 s and
    throws leaves the checkpoint where it was. *)
Lemma checkpoint_is_latest_sample_witness :
  (0 <? minTimeToLog_ timer_threshold_1s)%float = true
  /\ Clock_now (env world0) = (Returned (start_ timer_threshold_1s), env world0)
  /\ log "again" (timer_threshold_1s, world0)
    = (Returned 0%float,
       (timer_threshold_1s,
        {| env := env world0; trace := [EvReport "again" 0] |}))
  /\ logImpl 2500000000 "step1" (timer_slow_logger, world_at 2500000000)
    = (Returned 2.5%float,
       (set_start_ 12500000000 timer_slow_logger,
        {| env := {| ticks := 12500000000; sink := [("step1", 2.5%float)] |};
           trace := [EvReport "step1" 2.5; EvLogger "step1" 2.5] |}))
  /\ logImpl (clock := FakeClock) (logger := Flaky_Logger)
      3000000000 "step1" (timer_flaky_logger, world_at 3000000000)
    = (Thrown "sink unavailable",
       (set_logger_ {| stall := 10000000000; failures := 0 |}
          timer_flaky_logger,
        {| env := {| ticks := 13000000000; sink := [] |};
           trace := [EvReport "step1" 3; EvLogger "step1" 3] |})).
Proof.
  split; [reflexivity|]. split; [reflexivity|].
  destruct (checkpoint_is_latest_sample
              (clock := FakeClock) (logger := Spy_Logger))
    as (_ & _ & Himmediate & Hreturns & _ & _).
  destruct (checkpoint_is_latest_sample
              (clock := FakeClock) (logger := Flaky_Logger))
    as (_ & _ & _ & _ & _ & Hthrows).
  split; [|split].
  - exact (Himmediate "again" timer_threshold_1s world0 (env world0) 0
             (env world0) FakeClock_same_point eq_refl eq_refl eq_refl).
  - exact (Hreturns 2500000000 "step1" timer_slow_logger
             (env (world_at 2500000000)) []
             (logger_ timer_slow_logger,
              {| ticks := 12500000000; sink := [("step1", 2.5%float)] |})
             12500000000
             {| ticks := 12500000000; sink := [("step1", 2.5%float)] |}
             eq_refl eq_refl eq_refl).
  - destruct (Hthrows 3000000000 "step1" timer_flaky_logger
                (env (world_at 3000000000)) [] "sink unavailable"
                ({| stall := 10000000000; failures := 0 |},
                 {| ticks := 13000000000; sink := [] |})
                eq_refl eq_refl) as (Hstate & _).
    exact Hstate.
Defined.


(** C10 at a test timer without a message: the capturing logger is called
    with the empty string when the scope ends. *)
Lemma timer_passes_empty_message_witness :
  destructionMessage_ timer_unnamed = default_msg
  /\ (minTimeToLog_ timer_unnamed
      <=? seconds_between 2500000000%Z (start_ timer_unnamed))%float = true
  /\ logger_calls
      (trace (snd (scope_exit (Returned tt)
                     (timer_unnamed, world_at 2500000000))))
    = [(EmptyString, 2.5%float)]
  /\ Logger_call EmptyString 2.5%float
      (logger_ timer_unnamed, env (world_at 2500000000))
    = (Returned tt,
       (spy, {| ticks := 2500000000; sink := [(EmptyString, 2.5%float)] |}))
  /\ scope_exit (Returned tt) (timer_unnamed, world_at 2500000000)
    = (Returned tt,
       {| env := {| ticks := 2500000000;
                    sink := [(EmptyString, 2.5%float)] |};
          trace := [EvReport EmptyString 2.5; EvLogger EmptyString 2.5] |}).
Proof.
  split; [reflexivity|]. split; [reflexivity|].
  destruct (timer_passes_empty_message_to_logger
              (clock := FakeClock) (logger := Spy_Logger))
    as (_ & _ & Hexit & _ & _ & Hcalled & _).
  assert (Hpending : (Returned tt : outcome exn unit) <> Terminated)
    by discriminate.
  split; [|split].
  - exact (Hexit unit (Returned tt) timer_unnamed (world_at 2500000000)
             2500000000 (env (world_at 2500000000))
             Hpending eq_refl eq_refl eq_refl).
  - reflexivity.
  - exact (Hcalled unit (Returned tt) timer_unnamed (world_at 2500000000)
             2500000000 (env (world_at 2500000000))
             (spy, {| ticks := 2500000000;
                      sink := [(EmptyString, 2.5%float)] |})
             2500000000
             {| ticks := 2500000000; sink := [(EmptyString, 2.5%float)] |}
             Hpending eq_refl eq_refl eq_refl eq_refl eq_refl).
Defined.

(** The capturing logger does receive that call. *)
Example custom_logger_receives_empty_message :
  sink (env (snd (scope_exit (Returned tt)
                    (timer_unnamed, world_at 2500000000))))
  = [(EmptyString, 2.5%float)].
Proof. vm_compute. reflexivity. Qed.

(** C5, counterexample.  The checkpoint is 0 s, the clock reads 2 s when
    [log(args...)] is entered and building the message takes 1 s: the
    report returns 2, not the 3 s that run up to the end of formatting. *)
Lemma formatting_time_not_in_closed_interval :
  ~ formatting_in_closed_interval (slow_build 1000000000 "built")
      (timer_work, world_at 2000000000).
Proof.
  intros H.
  specialize (H 2000000000 (env (world_at 2000000000)) "built"
                (env (world_at 3000000000)) 3000000000
                (env (world_at 3000000000)) eq_refl eq_refl eq_refl).
  apply (f_equal (fun o => match o with
                          | Returned x => PrimFloat.eqb x 2
                          | _ => false
                          end)) in H.
  vm_compute in H. discriminate.
Qed.

(** The second of formatting is in no interval: the next report, made as
    soon as the first has returned, measures 0. *)
Example formatting_time_in_no_interval :
  let r := log_args (slow_build 1000000000 "built")
             (timer_work, world_at 2000000000) in
  fst r = Returned 2%float
  /\ ticks (env (snd (snd r))) = 3000000000
  /\ fst (log "next" (snd r)) = Returned 0%float.
Proof. repeat split; vm_compute; reflexivity. Qed.

(** C5, the amended statement at the test timer. *)
Lemma formatted_reports_witness :
  Clock_now (env (world_at 2000000000))
  = (Returned 2000000000, env (world_at 2000000000))
  /\ slow_build 1000000000 "built" (env (world_at 2000000000))
    = (Returned "built", env (world_at 3000000000))
  /\ log_args (slow_build 1000000000 "built")
      (timer_work, world_at 2000000000)
    = (Returned 2%float,
       (set_start_ 3000000000 timer_work,
        {| env := {| ticks := 3000000000; sink := [("built", 2%float)] |};
           trace := [EvReport "built" 2; EvLogger "built" 2] |})).
Proof.
  split; [reflexivity|]. split; [reflexivity|].
  destruct (formatted_reports_use_the_early_sample
              (clock := FakeClock) (logger := Spy_Logger))
    as (_ & _ & Hreturns).
  exact (Hreturns (slow_build 1000000000 "built") timer_work
           (world_at 2000000000) 2000000000 (env (world_at 2000000000))
           "built" (env (world_at 3000000000)) 3000000000
           {| ticks := 3000000000; sink := [("built", 2%float)] |}
           eq_refl eq_refl eq_refl eq_refl).
Defined.


(** With [~Spy() noexcept(false)] the same failure does reach that code. *)
Example final_report_failure_with_throwing_dtor :
  fst (scope_exit (logger := Spy_Logger_throwing_dtor) (Returned tt)
         (timer_broken_logger, world_at 1000000000))
  = Thrown "sink unavailable".
Proof. vm_compute. reflexivity. Qed.


(** C9 at the test doubles. *)
Lemma makeAutoTimer_witness :
  Clock_now (env world0) = (Returned 0, env world0)
  /\ makeAutoTimer "work" 0%float spy world0 = (Returned timer_work, world0).
Proof.
  split; [reflexivity|].
  destruct (makeAutoTimer_is_the_constructor
              (clock := FakeClock) (logger := Spy_Logger) "work" 0%float spy)
    as (_ & Hfields & _).
  exact (Hfields world0 0 (env world0) eq_refl).
Defined.

End Scenarios.

(** * Properties of code that uses a timer *)

(** Sequencing is associative. *)
Lemma bind_bind {E S A B C : Type} (m : M E S A) (k : A -> M E S B)
    (k' : B -> M E S C) (s : S) :
  bind (bind m k) k' s = bind m (fun x => bind (k x) k') s.
Proof. unfold bind. destruct (m s) as [[a|ex|] s']; reflexivity. Qed.

(** Sequencing, one step. *)
Lemma bind_unfold {E S A B : Type} (m : M E S A) (k : A -> M E S B) (s : S) :
  bind m k s
  = match m s with
    | (Returned a, s') => k a s'
    | (Thrown ex, s') => (Thrown ex, s')
    | (Terminated, s') => (Terminated, s')
    end.
Proof. reflexivity. Qed.

Section BlockFacts.
Context {E W TP L : Type} {clock : Clock E W TP} {logger : Logger E W L}.

Local Open Scope cpp_scope.
Local Open Scope float_scope.

Implicit Types (t : AutoTimer TP L) (w : World W) (s : @Self W TP L).

(** The destruction message is never changed by a report. *)
Lemma logImpl_keeps_message (now_ : TP) (msg : string) s :
  destructionMessage_ (fst (snd (logImpl now_ msg s)))
  = destructionMessage_ (fst s).
Proof.
  destruct s as [t [e tr]]. unfold_members.
  destruct (minTimeToLog_ t <=? _); cbn.
  - destruct (Logger_call _ _ _) as [[[]|ex|] [l' e']]; cbn; try reflexivity.
    destruct (Clock_now e') as [[t'|ex|] e2]; reflexivity.
  - destruct (Clock_now e) as [[t'|ex|] e2]; reflexivity.
Qed.

(** Code that leaves the timer and the trace alone respects the timer. *)
Lemma respects_timer_untouched s s' (o : outcome E (list float)) :
  fst s' = fst s ->
  trace (snd s') = trace (snd s) ->
  (forall vs, o = Returned vs -> vs = []) ->
  respects_timer s s' o.
Proof.
  intros Ht Htr Ho. unfold respects_timer. rewrite Ht.
  split; [reflexivity|]. split; [reflexivity|].
  exists []. rewrite app_nil_r. cbn.
  repeat split; auto using incl_nil_l.
  intros vs Hvs. symmetry. apply Ho. exact Hvs.
Qed.

(** One canonical report, its value returned as a one-element list. *)
Lemma report_respects_timer (now_ : TP) (msg : string) s0 s :
  fst s = fst s0 ->
  trace (snd s) = trace (snd s0) ->
  let r := (v <- logImpl now_ msg ;; ret [v]) s in
  respects_timer s0 (snd r) (fst r).
Proof.
  intros Ht Htr r. subst r. unfold bind, ret.
  pose proof (logImpl_keeps_message now_ msg s) as Hmsg.
  pose proof (logImpl_keeps_threshold now_ msg s) as Hmin.
  pose proof (logImpl_trace now_ msg s) as Hevs.
  pose proof (logImpl_value now_ msg s) as Hval.
  rewrite Ht in Hmsg, Hmin, Hevs, Hval. rewrite Htr in Hevs.
  set (d := seconds_between now_ (start_ (fst s0))) in *.
  assert (Hgoal : forall (o : outcome E (list float)) s',
             destructionMessage_ (fst s') = destructionMessage_ (fst s0) ->
             minTimeToLog_ (fst s') = minTimeToLog_ (fst s0) ->
             trace (snd s') = trace (snd s0) ++ report_events (fst s0) msg d ->
             (forall vs, o = Returned vs -> vs = [d]) ->
             respects_timer s0 s' o).
  { intros o s' H1 H2 H3 H4. unfold respects_timer.
    split; [exact H1|]. split; [exact H2|].
    exists (report_events (fst s0) msg d). split; [exact H3|].
    rewrite logger_calls_report_events, reports_report_events.
    destruct (minTimeToLog_ (fst s0) <=? d) eqn:Hge; cbn.
    - repeat split.
      + constructor; [exact Hge|constructor].
      + apply incl_refl.
      + apply le_n.
      + intros vs Hvs. symmetry. apply H4. exact Hvs.
    - repeat split.
      + constructor.
      + apply incl_nil_l.
      + apply le_S, le_n.
      + intros vs Hvs. symmetry. apply H4. exact Hvs. }
  destruct (logImpl now_ msg s) as [[v|ex|] s']; cbn [fst snd] in *;
    apply Hgoal; auto; try discriminate.
  intros vs Hvs. injection Hvs as <-. rewrite (Hval v eq_refl). reflexivity.
Qed.

(** Code on the environment, run from a member function. *)
Lemma global_in_env_eq {A : Type} (m : M E W A) t w :
  global (in_env m) (t, w)
  = (fst (m (env w)), (t, {| env := snd (m (env w)); trace := trace w |})).
Proof. unfold global, in_env. cbn. destruct (m (env w)); reflexivity. Qed.

(** Every statement respects the timer, however it ends. *)
Lemma run_stmt_respects_timer (c : stmt) s :
  respects_timer s (snd (run_stmt c s)) (fst (run_stmt c s)).
Proof.
  destruct s as [t [e tr]].
  assert (Hskip : forall (o : outcome E (list float)) (e' : W),
             (forall vs, o = Returned vs -> vs = []) ->
             respects_timer (t, {| env := e; trace := tr |})
               (t, {| env := e'; trace := tr |}) o).
  { intros o e' Ho. apply respects_timer_untouched; auto. }
  assert (Hreport : forall (now_ : TP) (msg : string) (e' : W),
             let r := (v <- logImpl now_ msg ;; ret [v])
                        (t, {| env := e'; trace := tr |}) in
             respects_timer (t, {| env := e; trace := tr |}) (snd r) (fst r)).
  { intros now_ msg e'. apply report_respects_timer; reflexivity. }
  destruct c as [f|msg|build|build]; cbn [run_stmt].
  - rewrite bind_unfold, global_in_env_eq. cbn [env trace].
    destruct (f e) as [[[]|ex|] e']; cbn [fst snd]; apply Hskip;
      try discriminate.
    intros vs Hvs. injection Hvs as <-. reflexivity.
  - unfold log, now. rewrite bind_bind, bind_unfold, global_in_env_eq.
    cbn [env trace].
    destruct (Clock_now e) as [[now_|ex|] e1]; cbn [fst snd].
    + apply Hreport.
    + apply Hskip; discriminate.
    + apply Hskip; discriminate.
  - unfold log_args, now. rewrite bind_bind, bind_unfold, global_in_env_eq.
    cbn [env trace].
    destruct (Clock_now e) as [[now_|ex|] e1]; cbn [fst snd].
    + rewrite bind_bind, bind_unfold, global_in_env_eq. cbn [env trace].
      destruct (build e1) as [[msg|ex|] e2]; cbn [fst snd].
      * apply Hreport.
      * apply Hskip; discriminate.
      * apply Hskip; discriminate.
    + apply Hskip; discriminate.
    + apply Hskip; discriminate.
  - unfold logFormat, now. rewrite bind_bind, bind_unfold, global_in_env_eq.
    cbn [env trace].
    destruct (Clock_now e) as [[now_|ex|] e1]; cbn [fst snd].
    + rewrite bind_bind, bind_unfold, global_in_env_eq. cbn [env trace].
      destruct (build e1) as [[msg|ex|] e2]; cbn [fst snd].
      * apply Hreport.
      * apply Hskip; discriminate.
      * apply Hskip; discriminate.
    + apply Hskip; discriminate.
    + apply Hskip; discriminate.
Qed.

(** Respecting the timer composes. *)
Lemma respects_timer_trans s s1 s2 (vs : list float)
    (o : outcome E (list float)) :
  respects_timer s s1 (Returned vs : outcome E (list float)) ->
  respects_timer s1 s2 o ->
  respects_timer s s2
    (match o with
     | Returned ws => Returned (vs ++ ws)
     | Thrown ex => Thrown ex
     | Terminated => Terminated
     end).
Proof.
  intros (Hm1 & Ht1 & evs1 & Htr1 & Hge1 & Hin1 & Hlen1 & Hv1)
         (Hm2 & Ht2 & evs2 & Htr2 & Hge2 & Hin2 & Hlen2 & Hv2).
  unfold respects_timer.
  split; [congruence|]. split; [congruence|].
  exists (evs1 ++ evs2).
  rewrite logger_calls_app, reports_app, !length_app, map_app.
  split; [rewrite Htr2, Htr1, app_assoc; reflexivity|].
  split; [apply Forall_app; split; [exact Hge1|]|].
  { rewrite <- Ht1. exact Hge2. }
  split; [apply incl_app; [apply incl_appl|apply incl_appr]; assumption|].
  split; [lia|].
  intros us Hus. destruct o as [ws|ex|]; try discriminate.
  injection Hus as <-. rewrite (Hv1 vs eq_refl), (Hv2 ws eq_refl).
  reflexivity.
Qed.

(** Every block respects the timer, however it ends. *)
Lemma run_block_respects_timer (b : list stmt) s :
  respects_timer s (snd (run_block b s)) (fst (run_block b s)).
Proof.
  revert s. induction b as [|c b IH]; intros s.
  - cbn. apply respects_timer_untouched; try reflexivity.
    intros vs Hvs. injection Hvs as <-. reflexivity.
  - cbn [run_block]. rewrite (bind_unfold (run_stmt c)).
    pose proof (run_stmt_respects_timer c s) as Hc.
    destruct (run_stmt c s) as [[vs|ex|] s1]; cbn [fst snd] in *.
    + specialize (IH s1). unfold bind, ret.
      pose proof (respects_timer_trans Hc IH) as Hboth.
      destruct (run_block b s1) as [[ws|ex|] s2]; cbn [fst snd] in *;
        exact Hboth.
    + exact Hc.
    + exact Hc.
Qed.

End BlockFacts.

(** * Further properties: blocks, edge cases of the threshold test, the
      default logger end to end *)

(** [d < 0] rules out [0 <= d]. *)
Lemma negative_not_zero_leb (d : float) :
  (d <? 0)%float = true -> (0 <=? d)%float = false.
Proof.
  rewrite ltb_spec, leb_spec. unfold SFltb, SFleb.
  change (Prim2SF 0) with (S754_zero false).
  destruct (Prim2SF d) as [sg|sg| |sg mant ex]; cbn;
    try destruct sg; cbn; congruence.
Qed.

(** A double that differs from itself is a NaN. *)
Lemma is_nan_Prim2SF (x : float) :
  is_nan x = true -> Prim2SF x = S754_nan.
Proof.
  unfold is_nan. rewrite eqb_spec. unfold SFeqb.
  destruct (Prim2SF x) as [sg|sg| |sg mant ex]; cbn; try reflexivity.
  - discriminate.
  - destruct sg; discriminate.
  - rewrite Z.compare_refl, Pos.compare_cont_refl.
    destruct sg; discriminate.
Qed.

(** No comparison with a NaN holds. *)
Lemma nan_not_leb (x y : float) :
  is_nan x = true \/ is_nan y = true -> (x <=? y)%float = false.
Proof.
  rewrite leb_spec. unfold SFleb.
  intros [H|H]; apply is_nan_Prim2SF in H; rewrite H.
  - reflexivity.
  - destruct (Prim2SF x); reflexivity.
Qed.

Section ThresholdEdgeFacts.
Context {E W TP L : Type} {clock : Clock E W TP} {logger : Logger E W L}.

Local Open Scope cpp_scope.
Local Open Scope float_scope.

Implicit Types (t : AutoTimer TP L) (w : World W) (s : @Self W TP L).

(** A report whose threshold test fails. *)
Lemma logImpl_suppressed (now_ : TP) (msg : string) t (e : W)
    (tr : list Event) (fresh : TP) (e2 : W) :
  let d := seconds_between now_ (start_ t) in
  (minTimeToLog_ t <=? d) = false ->
  Clock_now e = (Returned fresh, e2) ->
  logImpl now_ msg (t, {| env := e; trace := tr |})
  = (Returned d,
     (set_start_ fresh t, {| env := e2; trace := tr ++ [EvReport msg d] |})).
Proof.
  intros d Hlt Hclock.
  assert (Hstep : logger_step t msg d e = (Returned tt, (logger_ t, e))).
  { unfold logger_step. fold d. rewrite Hlt. reflexivity. }
  rewrite (logImpl_returns now_ msg t e tr (fresh := fresh) (e2 := e2)).
  - fold d. rewrite Hstep. unfold report_events. rewrite Hlt. reflexivity.
  - fold d. rewrite Hstep. reflexivity.
  - fold d. rewrite Hstep. exact Hclock.
Qed.

(** X5.  With the threshold 0.0, a report whose elapsed time is negative
    (the clock was set back: [high_resolution_clock] need not be steady)
    does not invoke the logger: it returns the negative value and resets
    the checkpoint, and the logger and the environment see nothing but the
    clock read. *)
Theorem negative_elapsed_is_not_logged (now_ : TP) (msg : string) t
    (e : W) (tr : list Event) (fresh : TP) (e2 : W) :
  minTimeToLog_ t = 0 ->
  (seconds_between now_ (start_ t) <? 0) = true ->
  Clock_now e = (Returned fresh, e2) ->
  logImpl now_ msg (t, {| env := e; trace := tr |})
  = (Returned (seconds_between now_ (start_ t)),
     (set_start_ fresh t,
      {| env := e2;
         trace := tr ++ [EvReport msg (seconds_between now_ (start_ t))] |})).
Proof.
  intros Hmin Hneg Hclock. apply logImpl_suppressed; [|exact Hclock].
  rewrite Hmin. apply negative_not_zero_leb. exact Hneg.
Qed.

(** X6.  [duration >= minTimeToLog_] is false when either side is a NaN:
    a timer constructed with a NaN threshold never invokes its logger, and
    a NaN elapsed time is never logged, whatever the threshold.  The report
    still returns and resets the checkpoint. *)
Theorem nan_is_never_logged (now_ : TP) (msg : string) t
    (e : W) (tr : list Event) (fresh : TP) (e2 : W) :
  is_nan (minTimeToLog_ t) = true
  \/ is_nan (seconds_between now_ (start_ t)) = true ->
  Clock_now e = (Returned fresh, e2) ->
  logImpl now_ msg (t, {| env := e; trace := tr |})
  = (Returned (seconds_between now_ (start_ t)),
     (set_start_ fresh t,
      {| env := e2;
         trace := tr ++ [EvReport msg (seconds_between now_ (start_ t))] |})).
Proof.
  intros Hnan Hclock. apply logImpl_suppressed; [|exact Hclock].
  apply nan_not_leb. exact Hnan.
Qed.

(** X7.  When the construction of the message throws in [log(args...)] or
    [logFormat(args...)], the exception leaves the call and the timer is as
    before: nothing is reported, the logger is not called and the
    checkpoint is not reset, so the next report also covers the interval
    that was to be closed. *)
Theorem failed_message_leaves_timer_untouched (build : M E W string) t w
    (now_ : TP) (e1 : W) (ex : E) (e2 : W) :
  Clock_now (env w) = (Returned now_, e1) ->
  build e1 = (Thrown ex, e2) ->
  log_args build (t, w) = (Thrown ex, (t, {| env := e2; trace := trace w |}))
  /\ logFormat build (t, w)
    = (Thrown ex, (t, {| env := e2; trace := trace w |}))
  /\ (forall (msg : string) (after : TP) (e3 : W),
        Clock_now e2 = (Returned after, e3) ->
        forall v,
          fst (log msg (t, {| env := e2; trace := trace w |})) = Returned v ->
          v = seconds_between after (start_ t)).
Proof.
  intros Hnow Hbuild.
  assert (Hfail : log_args build (t, w)
                  = (Thrown ex, (t, {| env := e2; trace := trace w |}))).
  { unfold log_args, now. rewrite bind_unfold, global_in_env_eq, Hnow.
    cbn [fst snd]. rewrite bind_unfold, global_in_env_eq. cbn [env trace].
    rewrite Hbuild. reflexivity. }
  split; [exact Hfail|]. split; [exact Hfail|].
  intros msg after e3 Hafter v Hv.
  rewrite (log_eq msg t {| env := e2; trace := trace w |}
             (now_ := after) (e1 := e3) Hafter) in Hv.
  apply logImpl_value in Hv. exact Hv.
Qed.

End ThresholdEdgeFacts.

Section BlockTheorems.
Context {E W TP L : Type} {clock : Clock E W TP} {logger : Logger E W L}.

Local Open Scope cpp_scope.
Local Open Scope float_scope.

Implicit Types (t : AutoTimer TP L) (w : World W) (s : @Self W TP L).

(** X1.  Whatever a block does with the public interface of a timer, and
    however the block ends (return or exception), the timer's destruction
    message and threshold are the ones it had: only the checkpoint and the
    logger object can change. *)
Theorem block_keeps_message_and_threshold (b : list stmt) s :
  destructionMessage_ (fst (snd (run_block b s))) = destructionMessage_ (fst s)
  /\ minTimeToLog_ (fst (snd (run_block b s))) = minTimeToLog_ (fst s).
Proof.
  destruct (run_block_respects_timer b s) as (Hmsg & Hmin & _).
  split; assumption.
Qed.

(** X2.  Over a whole block, however it ends, the logger is never invoked
    with a duration below the timer's threshold, every invocation carries
    the message and duration of a report made in the block, and there are
    no more invocations than reports. *)
Theorem logger_never_called_below_threshold (b : list stmt) s :
  exists evs : list Event,
    trace (snd (snd (run_block b s))) = trace (snd s) ++ evs
    /\ Forall (fun md => (minTimeToLog_ (fst s) <=? snd md) = true)
         (logger_calls evs)
    /\ incl (logger_calls evs) (reports evs)
    /\ (length (logger_calls evs) <= length (reports evs))%nat.
Proof.
  destruct (run_block_respects_timer b s)
    as (_ & _ & evs & Htr & Hge & Hin & Hlen & _).
  exists evs. repeat split; assumption.
Qed.

(** With capabilities that return, a report returns. *)
Lemma logImpl_total (now_ : TP) (msg : string) s :
  clock_returns -> logger_returns ->
  exists s', logImpl now_ msg s
             = (Returned (seconds_between now_ (start_ (fst s))), s').
Proof.
  intros Hclock Hlogger. destruct s as [t [e tr]]. cbn [fst].
  set (d := seconds_between now_ (start_ t)).
  assert (Hstep : exists lw, logger_step t msg d e = (Returned tt, lw)).
  { unfold logger_step. destruct (minTimeToLog_ t <=? d).
    - apply Hlogger.
    - eexists. reflexivity. }
  destruct Hstep as (lw & Hstep).
  destruct (Hclock (snd lw)) as (fresh & e2 & Hfresh).
  eexists.
  apply (logImpl_returns now_ msg t e tr (fresh := fresh) (e2 := e2)).
  - fold d. rewrite Hstep. reflexivity.
  - fold d. rewrite Hstep. exact Hfresh.
Qed.

Lemma run_stmt_total (c : stmt) s :
  clock_returns -> logger_returns -> stmt_returns c ->
  exists vs s',
    run_stmt c s = (Returned vs, s') /\ length vs = count_reports [c].
Proof.
  intros Hclock Hlogger Hc. destruct s as [t [e tr]].
  destruct c as [f|msg|build|build]; cbn [run_stmt count_reports].
  - destruct (Hc e) as (e' & Hf).
    rewrite bind_unfold, global_in_env_eq. cbn [env trace]. rewrite Hf.
    eexists. eexists. split; reflexivity.
  - destruct (Hclock e) as (now_ & e1 & Hnow).
    unfold log, now. rewrite bind_bind, bind_unfold, global_in_env_eq.
    cbn [env trace]. rewrite Hnow. cbn [fst snd].
    destruct (logImpl_total now_ msg (t, {| env := e1; trace := tr |})
                Hclock Hlogger) as (s' & Hs').
    rewrite bind_unfold, Hs'. eexists. eexists. split; reflexivity.
  - destruct (Hclock e) as (now_ & e1 & Hnow).
    destruct (Hc e1) as (msg & e2 & Hbuild).
    unfold log_args, now. rewrite bind_bind, bind_unfold, global_in_env_eq.
    cbn [env trace]. rewrite Hnow. cbn [fst snd].
    rewrite bind_bind, bind_unfold, global_in_env_eq. cbn [env trace].
    rewrite Hbuild. cbn [fst snd].
    destruct (logImpl_total now_ msg (t, {| env := e2; trace := tr |})
                Hclock Hlogger) as (s' & Hs').
    rewrite bind_unfold, Hs'. eexists. eexists. split; reflexivity.
  - destruct (Hclock e) as (now_ & e1 & Hnow).
    destruct (Hc e1) as (msg & e2 & Hbuild).
    unfold logFormat, now. rewrite bind_bind, bind_unfold, global_in_env_eq.
    cbn [env trace]. rewrite Hnow. cbn [fst snd].
    rewrite bind_bind, bind_unfold, global_in_env_eq. cbn [env trace].
    rewrite Hbuild. cbn [fst snd].
    destruct (logImpl_total now_ msg (t, {| env := e2; trace := tr |})
                Hclock Hlogger) as (s' & Hs').
    rewrite bind_unfold, Hs'. eexists. eexists. split; reflexivity.
Qed.

Lemma count_reports_cons (c : @stmt E W) (b : list (@stmt E W)) :
  count_reports (c :: b) = (count_reports [c] + count_reports b)%nat.
Proof. destruct c; reflexivity. Qed.

Lemma run_block_total (b : list stmt) s :
  clock_returns -> logger_returns -> Forall stmt_returns b ->
  exists vs s',
    run_block b s = (Returned vs, s') /\ length vs = count_reports b.
Proof.
  intros Hclock Hlogger Hb. revert s.
  induction Hb as [|c b Hc Hb IH]; intros s.
  - eexists. eexists. split; reflexivity.
  - destruct (run_stmt_total c s Hclock Hlogger Hc) as (vs & s1 & Hrun & Hlen).
    destruct (IH s1) as (ws & s2 & Hrest & Hlen').
    exists (vs ++ ws), s2. split.
    + cbn [run_block]. rewrite bind_unfold, Hrun, bind_unfold, Hrest.
      reflexivity.
    + rewrite length_app, count_reports_cons. lia.
Qed.

(** X3.  With a clock and a logger that return, and statements whose own
    code returns, a block runs to its end; it returns one value per report
    statement, in order, and these values are exactly the durations of the
    reports the block adds to the trace. *)
Theorem block_returns_the_reported_durations (b : list stmt) s :
  clock_returns -> logger_returns -> Forall stmt_returns b ->
  exists (vs : list float) s' (rs : list (string * float)),
    run_block b s = (Returned vs, s')
    /\ length vs = count_reports b
    /\ reports (trace (snd s')) = reports (trace (snd s)) ++ rs
    /\ map snd rs = vs.
Proof.
  intros Hclock Hlogger Hb.
  destruct (run_block_total s Hclock Hlogger Hb) as (vs & s' & Hrun & Hlen).
  pose proof (run_block_respects_timer b s) as Hres. rewrite Hrun in Hres.
  destruct Hres as (_ & _ & evs & Htr & _ & _ & _ & Hvs). cbn [fst snd] in *.
  exists vs, s', (reports evs). repeat split.
  - exact Hrun.
  - exact Hlen.
  - rewrite Htr, reports_app. reflexivity.
  - apply Hvs. reflexivity.
Qed.

(** Leaving the scope leaves the world the final report leaves. *)
Lemma scope_exit_world_of_report {A} (pending : outcome E A) t w
    (now_ : TP) (e1 : W) :
  pending <> Terminated ->
  Clock_now (env w) = (Returned now_, e1) ->
  snd (scope_exit pending (t, w))
  = snd (snd (logImpl now_ (destructionMessage_ t)
                (t, {| env := e1; trace := trace w |}))).
Proof.
  intros Hpending Hnow.
  rewrite (scope_exit_world (t, w) Hpending), AutoTimer_dtor_state.
  rewrite (dtor_body_eq t w Hnow). cbn zeta.
  destruct (logImpl _ _ _) as [[v|ex|] s']; reflexivity.
Qed.

(** X4.  A scope [{ AutoTimer t(msg, minTimetoLog, logger); block }]: when
    the block ends, by return or by exception, with the clock then reading
    [now_], the scope's last event is the final report, carrying the
    message given to the constructor however many reports the block made,
    measured from the block's last checkpoint, and passed to the logger
    exactly when it reaches the threshold given to the constructor: at or
    above it the scope leaves the environment that [operator()], called
    with that message and duration, left (after the closing clock read
    when the call returns, as it is when the call throws); below it, the
    environment the clock read alone left. *)
Theorem scope_ends_with_constructor_message
    (msg : string) (minTimetoLog : float) (lg : L) (b : list stmt) w
    t w1 (o : outcome E (list float)) t' w2 (now_ : TP) (e1 : W) :
  AutoTimer_ctor msg minTimetoLog lg w = (Returned t, w1) ->
  run_block b (t, w1) = (o, (t', w2)) ->
  o <> Terminated ->
  Clock_now (env w2) = (Returned now_, e1) ->
  let d := seconds_between now_ (start_ t') in
  trace (snd (scoped msg minTimetoLog lg (run_block b) w))
  = trace w2
      ++ EvReport msg d
         :: (if minTimetoLog <=? d then [EvLogger msg d] else [])
  /\ (forall (lw : L * W) (fresh : TP) (e2 : W),
        (minTimetoLog <=? d) = true ->
        Logger_call msg d (logger_ t', e1) = (Returned tt, lw) ->
        Clock_now (snd lw) = (Returned fresh, e2) ->
        snd (scoped msg minTimetoLog lg (run_block b) w)
        = {| env := e2;
             trace := trace w2 ++ [EvReport msg d; EvLogger msg d] |})
  /\ (forall (ex : E) (lw : L * W),
        (minTimetoLog <=? d) = true ->
        Logger_call msg d (logger_ t', e1) = (Thrown ex, lw) ->
        snd (scoped msg minTimetoLog lg (run_block b) w)
        = {| env := snd lw;
             trace := trace w2 ++ [EvReport msg d; EvLogger msg d] |})
  /\ (forall (fresh : TP) (e2 : W),
        (minTimetoLog <=? d) = false ->
        Clock_now e1 = (Returned fresh, e2) ->
        snd (scoped msg minTimetoLog lg (run_block b) w)
        = {| env := e2; trace := trace w2 ++ [EvReport msg d] |}).
Proof.
  intros Hctor Hblock Ho Hnow d.
  destruct (AutoTimer_ctor_fields _ _ _ _ Hctor) as (Hmsg & Hmin & _).
  destruct (run_block_respects_timer b (t, w1)) as (Hmsg' & Hmin' & _).
  rewrite Hblock in Hmsg', Hmin'. cbn [fst snd] in Hmsg', Hmin'.
  rewrite Hmsg in Hmsg'. rewrite Hmin in Hmin'.
  assert (Hworld : snd (scoped msg minTimetoLog lg (run_block b) w)
                   = snd (snd (logImpl now_ msg
                                 (t', {| env := e1; trace := trace w2 |})))).
  { unfold scoped. rewrite Hctor, Hblock.
    rewrite (scope_exit_world_of_report t' w2 Ho Hnow), Hmsg'.
    reflexivity. }
  split; [|split; [|split]].
  - unfold scoped. rewrite Hctor, Hblock.
    rewrite (scope_exit_world (t', w2) Ho), AutoTimer_dtor_state.
    rewrite (dtor_body_trace t' w2 Hnow). unfold report_events. fold d.
    rewrite Hmsg', Hmin'. reflexivity.
  - intros lw fresh e2 Hge Hcall Hclock. rewrite Hworld.
    rewrite <- Hmin' in Hge.
    rewrite (logImpl_logger_returns now_ msg t' e1 (trace w2)
               Hge Hcall Hclock).
    reflexivity.
  - intros ex lw Hge Hcall. rewrite Hworld.
    rewrite <- Hmin' in Hge.
    rewrite (logImpl_logger_throws now_ msg t' e1 (trace w2) Hge Hcall).
    reflexivity.
  - intros fresh e2 Hlt Hclock. rewrite Hworld.
    rewrite <- Hmin' in Hlt.
    rewrite (logImpl_below_threshold now_ msg t' e1 (trace w2) Hlt Hclock).
    reflexivity.
Qed.

(** X10.  The timer is transparent to the outcome of its scope.  When
    the block ends, by return or by exception, and the final report's
    logger step and clock reads return, the scope ends the way the block
    did (the value is returned, the exception goes on) after exactly the
    final report: the environment is the one the closing clock read
    leaves. *)
Theorem scope_passes_block_outcome
    (msg : string) (minTimetoLog : float) (lg : L) (b : list stmt) w
    t w1 (o : outcome E (list float)) t' w2 (now_ : TP) (e1 : W)
    (fresh : TP) (e2 : W) :
  AutoTimer_ctor msg minTimetoLog lg w = (Returned t, w1) ->
  run_block b (t, w1) = (o, (t', w2)) ->
  o <> Terminated ->
  Clock_now (env w2) = (Returned now_, e1) ->
  let d := seconds_between now_ (start_ t') in
  let step := logger_step t' msg d e1 in
  fst step = Returned tt ->
  Clock_now (snd (snd step)) = (Returned fresh, e2) ->
  scoped msg minTimetoLog lg (run_block b) w
  = (o,
     {| env := e2;
        trace := trace w2
                 ++ EvReport msg d
                    :: (if minTimetoLog <=? d
                        then [EvLogger msg d] else []) |}).
Proof.
  intros Hctor Hblock Ho Hnow d step Hstep Hfresh.
  destruct (AutoTimer_ctor_fields _ _ _ _ Hctor) as (Hmsg & Hmin & _).
  destruct (run_block_respects_timer b (t, w1)) as (Hmsg' & Hmin' & _).
  rewrite Hblock in Hmsg', Hmin'. cbn [fst snd] in Hmsg', Hmin'.
  rewrite Hmsg in Hmsg'. rewrite Hmin in Hmin'.
  assert (Hbody : dtor_body (t', w2)
                  = (Returned tt,
                     ({| destructionMessage_ := msg;
                         start_ := fresh;
                         minTimeToLog_ := minTimetoLog;
                         logger_ := fst (snd step) |},
                      {| env := e2;
                         trace := trace w2 ++ report_events t' msg d |}))).
  { rewrite (dtor_body_eq t' w2 Hnow), Hmsg'. cbn zeta.
    rewrite (logImpl_returns now_ msg t' e1 (trace w2) Hstep Hfresh).
    cbn [fst snd]. rewrite Hmsg', Hmin'. reflexivity. }
  assert (Hdtor : AutoTimer_dtor (t', w2) = dtor_body (t', w2)).
  { unfold AutoTimer_dtor. destruct Logger_dtor_noexcept; [|reflexivity].
    unfold noexcept. rewrite Hbody. reflexivity. }
  unfold scoped. rewrite Hctor, Hblock. unfold scope_exit.
  rewrite Hdtor, Hbody. unfold report_events. rewrite Hmin'.
  destruct o as [vs|ex|]; [reflexivity|reflexivity|congruence].
Qed.

End BlockTheorems.

Section DefaultLoggerTimerFacts.
Context {E W TP : Type} {clock : Clock E W TP}.
Variable LOG_INFO : string -> M E W unit.
Variable PrettyType : Type.
Variable PRETTY_TIME : PrettyType.
Variable prettyPrint : float -> PrettyType -> string.
Variable ostream_double : float -> string.

Local Open Scope float_scope.

Local Abbreviation glog Style :=
  (GoogleLogger_Logger LOG_INFO PRETTY_TIME prettyPrint ostream_double Style).

(** The logger step of a timer that holds the default logger. *)
Lemma GoogleLogger_step (Style : GoogleLoggerStyle)
    (t : AutoTimer TP (GoogleLogger Style)) (msg : string) (d : float)
    (e : W) :
  logger_step (logger := glog Style) t msg d e
  = if minTimeToLog_ t <=? d
    then (fst (GoogleLogger_call LOG_INFO PRETTY_TIME prettyPrint
                 ostream_double Style msg d e),
          (logger_ t,
           snd (GoogleLogger_call LOG_INFO PRETTY_TIME prettyPrint
                  ostream_double Style msg d e)))
    else (Returned tt, (logger_ t, e)).
Proof.
  unfold logger_step. destruct (minTimeToLog_ t <=? d); [|reflexivity].
  cbn. destruct (GoogleLogger_call _ _ _ _ _ _ _ _); reflexivity.
Qed.

(** X8.  The example of the class comment.  A timer that holds the default
    logger, reporting with a non-empty message at or above its threshold,
    writes exactly one line with [LOG(INFO)], the message followed by
    " in " and the duration in the logger's style, between the clock read
    that ends the interval and the one that starts the next; it returns
    the duration. *)
Theorem default_logger_timer_writes_one_line (Style : GoogleLoggerStyle)
    (t : AutoTimer TP (GoogleLogger Style)) (w : World W) (msg : string)
    (now_ : TP) (e1 e2 : W) (fresh : TP) (e3 : W) :
  empty msg = false ->
  Clock_now (env w) = (Returned now_, e1) ->
  let d := seconds_between now_ (start_ t) in
  (minTimeToLog_ t <=? d) = true ->
  LOG_INFO (msg ++ " in "
            ++ match Style with
               | PRETTY => prettyPrint d PRETTY_TIME
               | SECONDS => ostream_double d ++ " seconds"
               end) e1
  = (Returned tt, e2) ->
  Clock_now e2 = (Returned fresh, e3) ->
  log (logger := glog Style) msg (t, w)
  = (Returned d,
     (set_start_ fresh t,
      {| env := e3;
         trace := trace w ++ [EvReport msg d; EvLogger msg d] |})).
Proof.
  intros Hmsg Hnow d Hge Hline Hfresh.
  rewrite (log_eq (logger := glog Style) msg t w Hnow).
  assert (Hstep : logger_step (logger := glog Style) t msg d e1
                  = (Returned tt, (logger_ t, e2))).
  { rewrite GoogleLogger_step, Hge. unfold GoogleLogger_call.
    rewrite Hmsg. destruct Style; cbn [GoogleLoggerStyle_eqb];
      rewrite Hline; reflexivity. }
  rewrite (logImpl_returns (logger := glog Style) now_ msg t e1 (trace w)
             (fresh := fresh) (e2 := e3)).
  - fold d. rewrite Hstep. unfold report_events. rewrite Hge. reflexivity.
  - fold d. rewrite Hstep. reflexivity.
  - fold d. rewrite Hstep. exact Hfresh.
Qed.

(** X9.  Timing only, as in the class comment ([AutoTimer t; doWork();
    t.log()]).  On a timer that holds the default logger, [log()] with no
    message returns the elapsed time and resets the checkpoint, and the
    environment sees the two clock reads and nothing else, whatever the
    threshold; and when the destruction message is empty too, leaving the
    scope is as silent. *)
Theorem default_logger_timer_measures_silently (Style : GoogleLoggerStyle)
    (t : AutoTimer TP (GoogleLogger Style)) (w : World W)
    (now_ : TP) (e1 : W) (fresh : TP) (e2 : W) :
  Clock_now (env w) = (Returned now_, e1) ->
  Clock_now e1 = (Returned fresh, e2) ->
  let d := seconds_between now_ (start_ t) in
  log (logger := glog Style) default_msg (t, w)
  = (Returned d,
     (set_start_ fresh t,
      {| env := e2; trace := trace w ++ report_events t EmptyString d |}))
  /\ (destructionMessage_ t = EmptyString ->
      forall (A : Type) (a : A),
        scope_exit (logger := glog Style) (Returned a : outcome E A) (t, w)
        = (Returned a,
           {| env := e2;
              trace := trace w ++ report_events t EmptyString d |})).
Proof.
  intros Hnow Hfresh d.
  assert (Hstep : logger_step (logger := glog Style) t EmptyString d e1
                  = (Returned tt, (logger_ t, e1))).
  { rewrite GoogleLogger_step. destruct (minTimeToLog_ t <=? d); reflexivity. }
  assert (Hreport :
            logImpl (logger := glog Style) now_ EmptyString
              (t, {| env := e1; trace := trace w |})
            = (Returned d,
               (set_start_ fresh t,
                {| env := e2;
                   trace := trace w ++ report_events t EmptyString d |}))).
  { rewrite (logImpl_returns (logger := glog Style) now_ EmptyString t e1
               (trace w) (fresh := fresh) (e2 := e2)).
    - fold d. rewrite Hstep. reflexivity.
    - fold d. rewrite Hstep. reflexivity.
    - fold d. rewrite Hstep. exact Hfresh. }
  split.
  - unfold default_msg.
    rewrite (log_eq (logger := glog Style) EmptyString t w Hnow).
    exact Hreport.
  - intros Hmsg A a. unfold scope_exit, AutoTimer_dtor.
    cbn [Logger_dtor_noexcept GoogleLogger_Logger]. unfold noexcept.
    rewrite (dtor_body_eq (logger := glog Style) t w Hnow), Hmsg.
    cbn zeta. rewrite Hreport. reflexivity.
Qed.

End DefaultLoggerTimerFacts.

(** * The further properties under test *)

Section FurtherScenarios.
Import Fake.
#[local] Existing Instance FakeClock.
#[local] Existing Instance Spy_Logger.

Local Open Scope Z_scope.
Local Open Scope string_scope.

(** X5 at a timer whose checkpoint is 2 s ahead of the clock. *)
Lemma negative_elapsed_witness :
  minTimeToLog_ timer_clock_set_back = 0%float
  /\ (seconds_between (Clock := FakeClock) 3000000000%Z
        (start_ timer_clock_set_back) <? 0)%float = true
  /\ logImpl (clock := FakeClock) (logger := Spy_Logger) 3000000000 "late"
      (timer_clock_set_back, world_at 3000000000)
    = (Returned (-2)%float,
       (set_start_ 3000000000 timer_clock_set_back,
        {| env := env (world_at 3000000000);
           trace := [EvReport "late" (-2)%float] |})).
Proof.
  split; [reflexivity|]. split; [reflexivity|].
  exact (negative_elapsed_is_not_logged
           (clock := FakeClock) (logger := Spy_Logger)
           3000000000 "late" timer_clock_set_back
           (env (world_at 3000000000)) []
           (fresh := 3000000000) (e2 := env (world_at 3000000000))
           eq_refl eq_refl eq_refl).
Defined.

(** X6 at a timer constructed with a NaN threshold. *)
Lemma nan_threshold_witness :
  is_nan (minTimeToLog_ timer_nan_threshold) = true
  /\ logImpl (clock := FakeClock) (logger := Spy_Logger) 2500000000 "step1"
      (timer_nan_threshold, world_at 2500000000)
    = (Returned 2.5%float,
       (set_start_ 2500000000 timer_nan_threshold,
        {| env := env (world_at 2500000000);
           trace := [EvReport "step1" 2.5%float] |})).
Proof.
  split; [reflexivity|].
  exact (nan_is_never_logged
           (clock := FakeClock) (logger := Spy_Logger)
           2500000000 "step1" timer_nan_threshold
           (env (world_at 2500000000)) []
           (fresh := 2500000000) (e2 := env (world_at 2500000000))
           (or_introl eq_refl) eq_refl).
Defined.

(** X7 at a message builder that throws after 1 s. *)
Lemma failed_message_witness :
  Clock_now (Clock := FakeClock) (env (world_at 2000000000))
  = (Returned 2000000000, env (world_at 2000000000))
  /\ failing_build (env (world_at 2000000000))
    = (Thrown "invalid format string", env (world_at 3000000000))
  /\ logFormat (clock := FakeClock) (logger := Spy_Logger) failing_build
      (timer_work, world_at 2000000000)
    = (Thrown "invalid format string", (timer_work, world_at 3000000000)).
Proof.
  split; [reflexivity|]. split; [reflexivity|].
  destruct (failed_message_leaves_timer_untouched
              (clock := FakeClock) (logger := Spy_Logger)
              failing_build timer_work (world_at 2000000000)
              (now_ := 2000000000) (e1 := env (world_at 2000000000))
              (ex := "invalid format string")
              (e2 := env (world_at 3000000000)) eq_refl eq_refl)
    as (_ & Hformat & _).
  exact Hformat.
Defined.

(** X10 at a scope whose block throws 1 s after construction: the final
    report is made and the exception goes on. *)
Lemma scope_passes_block_outcome_witness :
  AutoTimer_ctor (clock := FakeClock) (logger := Spy_Logger)
    "work" 0%float spy world0
  = (Returned timer_work, world0)
  /\ run_block (clock := FakeClock) (logger := Spy_Logger) failing_block
      (timer_work, world0)
    = (Thrown "invalid format string", (timer_work, world_at 1000000000))
  /\ scoped (clock := FakeClock) (logger := Spy_Logger) "work" 0%float spy
      (run_block failing_block) world0
    = (Thrown "invalid format string",
       {| env := {| ticks := 1000000000; sink := [("work", 1%float)] |};
          trace := [EvReport "work" 1%float; EvLogger "work" 1%float] |}).
Proof.
  split; [reflexivity|]. split; [reflexivity|].
  exact (scope_passes_block_outcome
           (clock := FakeClock) (logger := Spy_Logger)
           "work" 0%float spy failing_block world0
           (t := timer_work) (w1 := world0)
           (o := Thrown "invalid format string")
           (t' := timer_work) (w2 := world_at 1000000000)
           (now_ := 1000000000) (e1 := env (world_at 1000000000))
           (fresh := 1000000000)
           (e2 := {| ticks := 1000000000; sink := [("work", 1%float)] |})
           eq_refl eq_refl ltac:(discriminate) eq_refl eq_refl eq_refl).
Defined.

End FurtherScenarios.

Section DefaultLoggerScenarios.
Import FakeGlog.
#[local] Existing Instance FakeClock.
#[local] Existing Instance glog.

Local Open Scope Z_scope.
Local Open Scope string_scope.

Lemma FakeGlog_clock_returns : clock_returns (clock := FakeClock).
Proof. intros e. exists (ticks e), e. reflexivity. Qed.

Lemma FakeGlog_logger_returns (Style : GoogleLoggerStyle) :
  logger_returns (logger := glog Style).
Proof.
  intros msg sec [l e]. destruct msg as [|c msg].
  - eexists. reflexivity.
  - destruct Style; eexists; reflexivity.
Qed.

Lemma class_comment_block_returns :
  Forall (stmt_returns (E := Fake.exn) (W := Env)) class_comment_block.
Proof.
  repeat constructor; intros e; eexists; reflexivity.
Qed.

(** X3 at the block of the class comment. *)
Lemma block_returns_witness :
  clock_returns (clock := FakeClock)
  /\ logger_returns (logger := glog PRETTY)
  /\ Forall (stmt_returns (E := Fake.exn) (W := Env)) class_comment_block
  /\ exists (vs : list float) s' (rs : list (string * float)),
      run_block (clock := FakeClock) (logger := glog PRETTY)
        class_comment_block (timer_foo, world_at 0)
      = (Returned vs, s')
      /\ length vs = 1%nat
      /\ reports (trace (snd s')) = rs
      /\ map snd rs = vs.
Proof.
  split; [exact FakeGlog_clock_returns|].
  split; [exact (@FakeGlog_logger_returns PRETTY)|].
  split; [exact class_comment_block_returns|].
  exact (block_returns_the_reported_durations
           (clock := FakeClock) (logger := glog PRETTY)
           (b := class_comment_block) (timer_foo, world_at 0)
           FakeGlog_clock_returns (@FakeGlog_logger_returns PRETTY)
           class_comment_block_returns).
Defined.

(** X4 at the scope of the class comment: the final report carries
    "Foo() completed" and the 3.1 s since [log("Do work finished")]. *)
Lemma scope_ends_with_constructor_message_witness :
  AutoTimer_ctor (clock := FakeClock) (logger := glog PRETTY)
    "Foo() completed" 0%float (GoogleLogger_obj PRETTY) (world_at 0)
  = (Returned timer_foo, world_at 0)
  /\ trace (snd (scoped (clock := FakeClock) (logger := glog PRETTY)
                  "Foo() completed" 0%float (GoogleLogger_obj PRETTY)
                  (run_block class_comment_block) (world_at 0)))
    = [EvReport "Do work finished" 0x1.3333333333333p+0%float;
       EvLogger "Do work finished" 0x1.3333333333333p+0%float;
       EvReport "Foo() completed" 0x1.8cccccccccccdp+1%float;
       EvLogger "Foo() completed" 0x1.8cccccccccccdp+1%float]
  /\ lines (env (snd (scoped (clock := FakeClock) (logger := glog PRETTY)
                        "Foo() completed" 0%float (GoogleLogger_obj PRETTY)
                        (run_block class_comment_block) (world_at 0))))
    = ["Do work finished in <time>"; "Foo() completed in <time>"].
Proof.
  split; [reflexivity|].
  pose proof (scope_ends_with_constructor_message
           (clock := FakeClock) (logger := glog PRETTY)
           "Foo() completed" 0%float (GoogleLogger_obj PRETTY)
           class_comment_block (world_at 0)
           (t := timer_foo) (w1 := world_at 0)
           (o := Returned [0x1.3333333333333p+0%float])
           (t' := set_start_ 1200000000 timer_foo)
           (w2 := {| env := {| ticks := 4300000000;
                               lines := ["Do work finished in <time>"] |};
                     trace := [EvReport "Do work finished"
                                 0x1.3333333333333p+0%float;
                               EvLogger "Do work finished"
                                 0x1.3333333333333p+0%float] |})
           (now_ := 4300000000)
           (e1 := {| ticks := 4300000000;
                     lines := ["Do work finished in <time>"] |})
           eq_refl eq_refl ltac:(discriminate) eq_refl)
    as (Htrace & Hlogged & _).
  split; [exact Htrace|].
  exact (f_equal (fun w => lines (env w))
           (Hlogged
              (GoogleLogger_obj PRETTY,
               {| ticks := 4300000000;
                  lines := ["Do work finished in <time>";
                            "Foo() completed in <time>"] |})
              4300000000
              {| ticks := 4300000000;
                 lines := ["Do work finished in <time>";
                           "Foo() completed in <time>"] |}
              eq_refl eq_refl eq_refl)).
Defined.

(** X8 at the timer of the class comment, 1.2 s after construction. *)
Lemma default_logger_timer_witness :
  empty "Do work finished" = false
  /\ lines (env (snd (snd (log (clock := FakeClock) (logger := glog PRETTY)
                            "Do work finished"
                            (timer_foo, world_at 1200000000)))))
    = ["Do work finished in <time>"]
  /\ fst (log (clock := FakeClock) (logger := glog PRETTY)
           "Do work finished" (timer_foo, world_at 1200000000))
    = Returned 0x1.3333333333333p+0%float.
Proof.
  split; [reflexivity|].
  pose proof (default_logger_timer_writes_one_line
                (clock := FakeClock)
                LOG_INFO PRETTY_TIME prettyPrint ostream_double
                (Style := PRETTY) timer_foo (world_at 1200000000)
                "Do work finished"
                (now_ := 1200000000) (e1 := env (world_at 1200000000))
                (e2 := {| ticks := 1200000000;
                          lines := ["Do work finished in <time>"] |})
                (fresh := 1200000000)
                (e3 := {| ticks := 1200000000;
                          lines := ["Do work finished in <time>"] |})
                eq_refl eq_refl eq_refl eq_refl eq_refl) as Hline.
  split.
  - exact (f_equal (fun r => lines (env (snd (snd r)))) Hline).
  - exact (f_equal fst Hline).
Defined.

(** X9 at a timer without messages, 1.2 s after construction: nothing is
    written, by [log()] or by leaving the scope. *)
Lemma default_logger_silent_witness :
  destructionMessage_ timer_silent = EmptyString
  /\ lines (env (snd (snd (log (clock := FakeClock) (logger := glog PRETTY)
                            default_msg
                            (timer_silent, world_at 1200000000)))))
    = []
  /\ lines (env (snd (scope_exit (clock := FakeClock) (logger := glog PRETTY)
                       (Returned tt : outcome Fake.exn unit)
                       (timer_silent, world_at 1200000000))))
    = [].
Proof.
  split; [reflexivity|].
  destruct (default_logger_timer_measures_silently
              (clock := FakeClock)
              LOG_INFO PRETTY_TIME prettyPrint ostream_double
              (Style := PRETTY) timer_silent (world_at 1200000000)
              (now_ := 1200000000) (e1 := env (world_at 1200000000))
              (fresh := 1200000000) (e2 := env (world_at 1200000000))
              eq_refl eq_refl) as (Hlog & Hexit).
  split.
  - exact (f_equal (fun r => lines (env (snd (snd r)))) Hlog).
  - exact (f_equal (fun r => lines (env (snd r)))
             (Hexit eq_refl unit tt)).
Defined.

End DefaultLoggerScenarios.
